(** * crypto-sentiment: the sentiment aggregation engine of
      [sentiment_generator.py]

    A shallow embedding of the driver mappers, the mean-reverting simulator,
    the delta computation, the bounded history and the payload assembly.

    Conventions of the embedding.
    - A Python [int] is a [Z].  A Python [float] is an exact rational [Q]:
      arithmetic is the ideal one, without binary64 rounding, and the
      special values NaN and infinity are not represented.
    - A Python [dict] is an association list in insertion order.
    - A value read from a JSON file is a [json] term.
    - Code that can raise returns a [result]; [try ... except Exception]
      is [try_except].
    - Module [Binary64] repeats the numeric functions on IEEE binary64
      floats, which Python's [float] is; it is used to evaluate them at the
      inputs the statements name and to compare with the rational model. *)

From Stdlib Require Import ZArith QArith Qround Qabs Lqa Lia.
From Stdlib Require Import List String Bool.
From Stdlib Require Import PrimFloat FloatOps SpecFloat FloatAxioms.
From Stdlib Require Import FMapPositive.
Import ListNotations.

Local Open Scope string_scope.
Local Open Scope list_scope.
Local Open Scope Z_scope.

(** ** Python numerics *)

Module Py.

(** [max(a, b)] keeps its first argument unless the second is strictly
    greater; [min(a, b)] keeps it unless the second is strictly smaller. *)
Definition maxZ (a b : Z) : Z := if a <? b then b else a.
Definition minZ (a b : Z) : Z := if b <? a then b else a.

Definition maxQ (a b : Q) : Q :=
  match (a ?= b)%Q with Lt => b | _ => a end.
Definition minQ (a b : Q) : Q :=
  match (b ?= a)%Q with Lt => b | _ => a end.

Definition ltQ (a b : Q) : bool :=
  match (a ?= b)%Q with Lt => true | _ => false end.
Definition leQ (a b : Q) : bool :=
  match (a ?= b)%Q with Gt => false | _ => true end.

(** [round(x)] on a float: the nearest integer, a tie going to the even
    neighbour. *)
Definition round (x : Q) : Z :=
  let f := Qfloor x in
  match (x - inject_Z f ?= 1 # 2)%Q with
  | Lt => f
  | Gt => f + 1
  | Eq => if Z.even f then f else f + 1
  end.

(** [sum(xs)] starts from the integer 0 and adds from the left. *)
Definition sum (xs : list Q) : Q := fold_left Qplus xs (inject_Z 0).

End Py.

(** ** Exceptions *)

Inductive exn : Set :=
| KeyError | TypeError | AttributeError | ValueError | OverflowError
| OSError | JSONDecodeError | RequestException.

Inductive result (A : Type) : Type :=
| Ok (a : A)
| Raise (e : exn).
Arguments Ok {A} a.
Arguments Raise {A} e.

Definition bind {A B : Type} (r : result A) (k : A -> result B) : result B :=
  match r with
  | Ok a => k a
  | Raise e => Raise e
  end.

Notation "x <- r ;; k" := (bind r (fun x => k))
  (at level 61, r at next level, right associativity).

(** [try: body  except Exception: return fallback]. *)
Definition try_except {A : Type} (body : result A) (fallback : A) : A :=
  match body with
  | Ok a => a
  | Raise _ => fallback
  end.

(** ** JSON values and dictionaries *)

Set Warnings "-register-all".


Definition dict (V : Type) : Type := list (string * V).

Inductive json : Type :=
| JNull
| JBool (b : bool)
| JInt (z : Z)
| JFloat (q : Q)
| JStr (s : string)
| JList (l : list json)
| JDict (d : list (string * json)).

Section Dict.
Context {V : Type}.

(** [d.get(k)]: [None] when the key is absent. *)
Fixpoint dict_get (d : dict V) (k : string) : option V :=
  match d with
  | [] => None
  | (k', v) :: rest => if String.eqb k' k then Some v else dict_get rest k
  end.

(** [d[k]]: raises [KeyError] when the key is absent. *)
Definition dict_getitem (d : dict V) (k : string) : result V :=
  match dict_get d k with
  | Some v => Ok v
  | None => Raise KeyError
  end.

(** [d[k] = v]: overwrites in place, or appends a new key. *)
Fixpoint dict_set (d : dict V) (k : string) (v : V) : dict V :=
  match d with
  | [] => [(k, v)]
  | (k', v') :: rest =>
      if String.eqb k' k then (k', v) :: rest
      else (k', v') :: dict_set rest k v
  end.

Definition keys (d : dict V) : list string := map fst d.
End Dict.

(** [isinstance(v, (int, float))] together with the number it denotes;
    [bool] is a subclass of [int] in Python. *)
Definition json_number (v : json) : option Q :=
  match v with
  | JBool b => Some (if b then 1 else 0)%Q
  | JInt z => Some (inject_Z z)
  | JFloat q => Some q
  | _ => None
  end.

(** [obj.get(k)] and [obj.get(k, default)] on an arbitrary value: only a
    dict has the method; Python's [None] is [JNull]. *)
Definition json_get_default (obj : json) (k : string) (default : json)
    : result json :=
  match obj with
  | JDict d => Ok (match dict_get d k with Some v => v | None => default end)
  | _ => Raise AttributeError
  end.

Definition json_get (obj : json) (k : string) : result json :=
  json_get_default obj k JNull.

Definition isinstance_dict (v : json) : bool :=
  match v with JDict _ => true | _ => false end.

Definition isinstance_list (v : json) : bool :=
  match v with JList _ => true | _ => false end.

(** [k in obj]: key test on a dict, membership on a list, substring test
    on a string, [TypeError] on anything else. *)
Definition json_contains (k : string) (obj : json) : result bool :=
  match obj with
  | JDict d => Ok (match dict_get d k with Some _ => true | None => false end)
  | JList l =>
      Ok (existsb (fun j => match j with JStr s => String.eqb s k
                                       | _ => false end) l)
  | JStr s => Ok (match index 0 k s with Some _ => true | None => false end)
  | _ => Raise TypeError
  end.

(** [obj[k]] with a string key. *)
Definition json_getitem (obj : json) (k : string) : result json :=
  match obj with
  | JDict d => dict_getitem d k
  | _ => Raise TypeError
  end.

(** Reading along a path of keys, for statements about nested payloads. *)
Fixpoint jpath (obj : json) (path : list string) : option json :=
  match path with
  | [] => Some obj
  | k :: rest =>
      match obj with
      | JDict d =>
          match dict_get d k with
          | Some v => jpath v rest
          | None => None
          end
      | _ => None
      end
  end.

(** ** Signal sources *)

(** Each source wraps its HTTP request, the decoding of the answer and the
    conversion to a number in one [try]; the argument is the outcome of
    that block. *)

(** [get_fear_greed], lines 20-28. *)
Definition get_fear_greed (response : result Z) : Z :=
  try_except response 50.

(** [get_btc_price_change], lines 31-45. *)
Definition get_btc_price_change (response : result Q) : Q :=
  try_except response 0%Q.

(** ** Driver mappers *)

(** [price_action_sentiment], lines 48-58. *)
Definition price_action_sentiment (change_24h : Q) : Z :=
  let ch := Py.maxQ (-10) (Py.minQ 10 change_24h) in
  let value := (50 + ch * 3)%Q in
  Py.maxZ 0 (Py.minZ 100 (Py.round value)).

(** [get_liquidity_sentiment], lines 61-104: [vol_now] is the outcome of
    the first request, [vols] that of the second one after the list
    comprehension. *)
Definition get_liquidity_sentiment
    (vol_now : result Q) (vols : result (list Q)) : Z :=
  try_except
    (vol_now <- vol_now ;;
     vols <- vols ;;
     match vols with
     | [] => Ok 50
     | _ =>
         let avg_vol := (Py.sum vols / inject_Z (Z.of_nat (List.length vols)))%Q in
         if Py.leQ avg_vol 0 then Ok 50
         else
           let ratio := (vol_now / avg_vol)%Q in
           let ratio := Py.maxQ 0.25 (Py.minQ 2.5 ratio) in
           let score := (50 + (ratio - 1) * 30)%Q in
           let score_int := Py.round score in
           Ok (Py.maxZ 0 (Py.minZ 100 score_int))
     end)
    50.

(** ** Files *)

(** What a run finds under a file name: nothing, a file that cannot be
    opened or read, a file that is not JSON, or a JSON document. *)
Inductive file : Type :=
| NoFile
| Unreadable
| Malformed
| Json (j : json).

Definition os_path_exists (f : file) : bool :=
  match f with NoFile => false | _ => true end.

(** [with open(name, "r") as f: json.load(f)]. *)
Definition read_json (f : file) : result json :=
  match f with
  | NoFile => Raise OSError
  | Unreadable => Raise OSError
  | Malformed => Raise JSONDecodeError
  | Json j => Ok j
  end.

Definition MAX_HISTORY_POINTS : nat := 200.

(** ** State, for the deltas *)

(** [load_previous_state], lines 111-118. *)
Definition load_previous_state (state_file : file) : json :=
  if negb (os_path_exists state_file) then JDict []
  else try_except (read_json state_file) (JDict []).

(** [save_state], lines 121-124: the new content of the state file. *)
Definition save_state (driver_values : dict Z) (utcnow : string) : file :=
  let state :=
    JDict [("drivers", JDict (map (fun kv => (fst kv, JInt (snd kv)))
                                  driver_values));
           ("timestamp", JStr utcnow)] in
  Json state.

(** Lines 136-139: the delta of one driver from what [prev_drivers.get(key)]
    returned. *)
Definition delta_of (val : Z) (prev_val : json) : Z :=
  match json_number prev_val with
  | Some p => Py.round (inject_Z val - p)
  | None => 0
  end.

(** The loop of [compute_deltas], lines 134-139. *)
Fixpoint compute_deltas_loop (items : list (string * Z)) (prev_drivers : json)
    (deltas : dict Z) : result (dict Z) :=
  match items with
  | [] => Ok deltas
  | (key, val) :: rest =>
      prev_val <- json_get prev_drivers key ;;
      compute_deltas_loop rest prev_drivers
                          (dict_set deltas key (delta_of val prev_val))
  end.

(** [compute_deltas], lines 127-140. *)
Definition compute_deltas (current : dict Z) (previous : json)
    : result (dict Z) :=
  prev_drivers <-
    (if isinstance_dict previous
     then json_get_default previous "drivers" (JDict [])
     else Ok (JDict [])) ;;
  compute_deltas_loop current prev_drivers [].

(** ** History, for the sparklines *)

Definition empty_history : json := JDict [("points", JList [])].

(** [load_history], lines 147-157. *)
Definition load_history (history_file : file) : json :=
  if negb (os_path_exists history_file) then empty_history
  else
    try_except
      (data <- read_json history_file ;;
       has_points <- json_contains "points" data ;;
       if negb has_points then Ok empty_history
       else
         points <- json_getitem data "points" ;;
         if negb (isinstance_list points) then Ok empty_history
         else Ok data)
      empty_history.

(** [points[-n:]] for a positive [n]. *)
Definition slice_last {A : Type} (n : nat) (points : list A) : list A :=
  skipn (List.length points - n) points.

(** The entry of lines 164-168. *)
Definition history_entry (utcnow : string) (total_value : Z)
    (driver_values : dict Z) : json :=
  JDict [("timestamp", JStr utcnow);
         ("total", JInt total_value);
         ("drivers", JDict (map (fun kv => (fst kv, JInt (snd kv)))
                                driver_values))].

(** [update_history], lines 160-175: the new content of the history file. *)
Definition update_history (history_file : file) (total_value : Z)
    (driver_values : dict Z) (utcnow : string) : result file :=
  let history := load_history history_file in
  points <- json_get_default history "points" (JList []) ;;
  let entry := history_entry utcnow total_value driver_values in
  match points with
  | JList points =>
      let points := points ++ [entry] in
      let points :=
        if (MAX_HISTORY_POINTS <? List.length points)%nat
        then slice_last MAX_HISTORY_POINTS points
        else points in
      match history with
      | JDict history =>
          Ok (Json (JDict (dict_set history "points" (JList points))))
      | _ => Raise TypeError
      end
  | _ => Raise AttributeError
  end.

(** ** Mean-reverting simulation *)

(** [_get_prev_driver_value], lines 182-191. *)
Definition _get_prev_driver_value (prev_state : json) (name : string)
    (default : Q) : Q :=
  match prev_state with
  | JDict st =>
      match dict_get st "drivers" with
      | Some (JDict drivers) =>
          match dict_get drivers name with
          | Some val =>
              match json_number val with
              | Some q => q
              | None => default
              end
          | None => default
          end
      | Some _ => default
      | None => default
      end
  | _ => default
  end.

(** [simulate_driver], lines 194-215; [noise] is the value drawn by
    [random.uniform(-volatility, volatility)]. *)
Definition simulate_driver (name : string) (prev_state : json)
    (base volatility mean_reversion : Q) (noise : Q) : Z :=
  let prev_val := _get_prev_driver_value prev_state name base in
  let reversion := (mean_reversion * (base - prev_val))%Q in
  let new_val := (prev_val + noise + reversion)%Q in
  Py.maxZ 0 (Py.minZ 100 (Py.round new_val)).

Definition get_news_sentiment (prev_state : json) (noise : Q) : Z :=
  simulate_driver "news" prev_state 50 6 0.4 noise.

Definition get_social_sentiment (prev_state : json) (noise : Q) : Z :=
  simulate_driver "social" prev_state 50 8 0.45 noise.

Definition get_onchain_sentiment (prev_state : json) (noise : Q) : Z :=
  simulate_driver "on_chain" prev_state 50 5 0.35 noise.

(** ** Main calculation *)

(** Everything a run reads from outside: the two files, the outcome of
    each source, the three random draws and the clock at its three
    readings. *)
Record Env : Type := {
  state_file : file;
  history_file : file;
  fng_response : result Z;
  price_change_response : result Q;
  volume_now_response : result Q;
  volume_history_response : result (list Q);
  noise_news : Q;
  noise_social : Q;
  noise_on_chain : Q;
  utcnow_payload : string;
  utcnow_state : string;
  utcnow_history : string
}.

(** What a run leaves behind, next to the payload it returns. *)
Record Files : Type := {
  new_state_file : file;
  new_history_file : file
}.

Definition weights : dict Q :=
  [("fear_greed", 0.20%Q); ("news", 0.15%Q); ("social", 0.15%Q);
   ("price_action", 0.20%Q); ("on_chain", 0.15%Q); ("liquidity", 0.15%Q)].

(** The accumulation loop of lines 298-302. *)
Fixpoint weighted_sums (items : list (string * Q)) (driver_values : dict Z)
    (numerator denom : Q) : result (Q * Q) :=
  match items with
  | [] => Ok (numerator, denom)
  | (key, w) :: rest =>
      v <- dict_getitem driver_values key ;;
      weighted_sums rest driver_values
        (numerator + inject_Z v * w)%Q (denom + w)%Q
  end.

(** Lines 298-303, for an arbitrary table of weights. *)
Definition weighted_total (weights : dict Q) (driver_values : dict Z)
    : result Z :=
  nd <- weighted_sums weights driver_values 0%Q 0%Q ;;
  let (numerator, denom) := nd in
  Ok (if Py.ltQ 0 denom then Py.round (numerator / denom) else 50).

Definition driver_record (label : string) (value delta : Z) : json :=
  JDict [("label", JStr label); ("value", JInt value); ("delta", JInt delta)].

(** [build_sentiment_payload], lines 262-357. *)
Definition build_sentiment_payload (env : Env) : result (json * Files) :=
  let prev_state := load_previous_state (state_file env) in
  let fg := get_fear_greed (fng_response env) in
  let change_24h := get_btc_price_change (price_change_response env) in
  let news := get_news_sentiment prev_state (noise_news env) in
  let social := get_social_sentiment prev_state (noise_social env) in
  let onchain := get_onchain_sentiment prev_state (noise_on_chain env) in
  let price_sent := price_action_sentiment change_24h in
  let liquidity :=
    get_liquidity_sentiment (volume_now_response env)
                            (volume_history_response env) in
  let driver_values : dict Z :=
    [("fear_greed", fg); ("news", news); ("social", social);
     ("price_action", price_sent); ("on_chain", onchain);
     ("liquidity", liquidity)] in
  deltas <- compute_deltas driver_values prev_state ;;
  total_value <- weighted_total weights driver_values ;;
  v_fg <- dict_getitem driver_values "fear_greed" ;;
  d_fg <- dict_getitem deltas "fear_greed" ;;
  v_news <- dict_getitem driver_values "news" ;;
  d_news <- dict_getitem deltas "news" ;;
  v_social <- dict_getitem driver_values "social" ;;
  d_social <- dict_getitem deltas "social" ;;
  v_price <- dict_getitem driver_values "price_action" ;;
  d_price <- dict_getitem deltas "price_action" ;;
  v_chain <- dict_getitem driver_values "on_chain" ;;
  d_chain <- dict_getitem deltas "on_chain" ;;
  v_liq <- dict_getitem driver_values "liquidity" ;;
  d_liq <- dict_getitem deltas "liquidity" ;;
  let drivers_struct :=
    JDict [("fear_greed", driver_record "Fear & Greed" v_fg d_fg);
           ("news", driver_record "News Sentiment" v_news d_news);
           ("social", driver_record "Social Buzz" v_social d_social);
           ("price_action", driver_record "Price Action" v_price d_price);
           ("on_chain", driver_record "On-chain Activity" v_chain d_chain);
           ("liquidity", driver_record "Liquidity" v_liq d_liq)] in
  let payload :=
    JDict [("timestamp", JStr (utcnow_payload env));
           ("total", JDict [("value", JInt total_value)]);
           ("drivers", drivers_struct);
           ("value", JInt total_value);
           ("fear_greed", JInt fg);
           ("news_sentiment", JInt news);
           ("price_sentiment", JInt price_sent);
           ("price_change_24h", JFloat change_24h);
           ("liquidity_sentiment", JInt liquidity)] in
  let state' := save_state driver_values (utcnow_state env) in
  history' <- update_history (history_file env) total_value driver_values
                             (utcnow_history env) ;;
  Ok (payload, {| new_state_file := state'; new_history_file := history' |}).

(** The six driver names, in the order of [driver_values]. *)
Definition driver_names : list string :=
  ["fear_greed"; "news"; "social"; "price_action"; "on_chain"; "liquidity"].

(** ** The numeric functions on binary64 floats *)

Set Warnings "-inexact-float".

Module Binary64.

(** *** Numbers *)

(** The rational a finite float stands for; [None] for NaN and the
    infinities. *)
Definition to_Q64 (f : float) : option Q :=
  match Prim2SF f with
  | S754_zero _ => Some 0%Q
  | S754_finite s m e =>
      let v := match e with
               | Z0 => inject_Z (Zpos m)
               | Zpos p => inject_Z (Zpos m * Z.pow 2 (Zpos p))
               | Zneg p => Qmake (Zpos m) (Pos.pow 2 p)
               end in
      Some (if s then (- v)%Q else v)
  | S754_infinity _ => None
  | S754_nan => None
  end.

(** [float(z)] for an [int], also where an [int] meets a [float] in an
    arithmetic operation: the nearest float, a tie going to the even
    mantissa, and [OverflowError] beyond the range of the floats. *)
Definition of_int64 (z : Z) : result float :=
  match z with
  | Z0 => Ok 0%float
  | Zpos p | Zneg p =>
      let sign := match z with Zneg _ => true | _ => false end in
      let n := Zpos p in
      let shift := Z.max 0 (Z.log2 n - 52) in
      let q := Z.shiftr n shift in
      let r := n - Z.shiftl q shift in
      let q' := if shift =? 0 then q
                else match r ?= Z.shiftl 1 (shift - 1) with
                     | Lt => q
                     | Gt => q + 1
                     | Eq => if Z.even q then q else q + 1
                     end in
      if 2 ^ 1024 <=? Z.shiftl q' shift then Raise OverflowError
      else Ok (SF2Prim (S754_finite sign (Z.to_pos q') shift))
  end.

(** [round(x)]: raises on NaN and on an infinity. *)
Definition round64 (x : float) : result Z :=
  match to_Q64 x with
  | Some q => Ok (Py.round q)
  | None => if is_nan x then Raise ValueError else Raise OverflowError
  end.

Definition max64 (a b : float) : float := if (a <? b)%float then b else a.
Definition min64 (a b : float) : float := if (b <? a)%float then b else a.

(** *** Driver mappers *)

(** [price_action_sentiment], lines 48-58. *)
Definition price_action_sentiment64 (change_24h : float) : result Z :=
  let ch := max64 (-10)%float (min64 10%float change_24h) in
  let value := (50 + ch * 3)%float in
  r <- round64 value ;;
  Ok (Py.maxZ 0 (Py.minZ 100 r)).

(** The built-in [sum] on a list of floats, as CPython up to 3.11 computes
    it: from the [int] 0, adding from the left.  From 3.12 on the
    interpreter carries a compensation term beside the running sum; for a
    list of one element the two agree.  The functions below take the
    interpreter's [sum] as the argument [builtin_sum]. *)
Definition sum_left64 (vols : list float) : float :=
  fold_left PrimFloat.add vols 0%float.

(** Lines 88-101 of [get_liquidity_sentiment]. *)
Definition liquidity_body64 (builtin_sum : list float -> float)
    (vol_now : float) (vols : list float) : result Z :=
  match vols with
  | [] => Ok 50
  | _ =>
      len <- of_int64 (Z.of_nat (List.length vols)) ;;
      let avg_vol := (builtin_sum vols / len)%float in
      if (avg_vol <=? 0)%float then Ok 50
      else
        let ratio := (vol_now / avg_vol)%float in
        let ratio := max64 0.25%float (min64 2.5%float ratio) in
        let score := (50 + (ratio - 1) * 30)%float in
        score_int <- round64 score ;;
        Ok (Py.maxZ 0 (Py.minZ 100 score_int))
  end.

(** [get_liquidity_sentiment], lines 61-104: the two requests, then the
    body, all under one [except]. *)
Definition get_liquidity_sentiment64 (builtin_sum : list float -> float)
    (vol_now : result float) (vols : result (list float)) : Z :=
  try_except
    (vol_now <- vol_now ;;
     vols <- vols ;;
     liquidity_body64 builtin_sum vol_now vols)
    50.

(** [get_btc_price_change], lines 31-45. *)
Definition get_btc_price_change64 (response : result float) : float :=
  try_except response 0%float.

(** *** JSON values with float numbers *)

Inductive json64 : Type :=
| JNull64
| JBool64 (b : bool)
| JInt64 (z : Z)
| JFloat64 (f : float)
| JStr64 (s : string)
| JList64 (l : list json64)
| JDict64 (d : list (string * json64)).

(** [isinstance(v, (int, float))]. *)
Definition isinstance_number64 (v : json64) : bool :=
  match v with
  | JBool64 _ | JInt64 _ | JFloat64 _ => true
  | _ => false
  end.

(** [float(v)] for a [v] that passed the [isinstance] test. *)
Definition float64 (v : json64) : result float :=
  match v with
  | JBool64 b => Ok (if b then 1 else 0)%float
  | JInt64 z => of_int64 z
  | JFloat64 f => Ok f
  | _ => Raise TypeError
  end.

Definition json_get_default64 (obj : json64) (k : string) (default : json64)
    : result json64 :=
  match obj with
  | JDict64 d => Ok (match dict_get d k with Some v => v | None => default end)
  | _ => Raise AttributeError
  end.

Definition json_get64 (obj : json64) (k : string) : result json64 :=
  json_get_default64 obj k JNull64.

Definition isinstance_dict64 (v : json64) : bool :=
  match v with JDict64 _ => true | _ => false end.

Definition isinstance_list64 (v : json64) : bool :=
  match v with JList64 _ => true | _ => false end.

Definition json_contains64 (k : string) (obj : json64) : result bool :=
  match obj with
  | JDict64 d =>
      Ok (match dict_get d k with Some _ => true | None => false end)
  | JList64 l =>
      Ok (existsb (fun j => match j with JStr64 s => String.eqb s k
                                       | _ => false end) l)
  | JStr64 s => Ok (match index 0 k s with Some _ => true | None => false end)
  | _ => Raise TypeError
  end.

Definition json_getitem64 (obj : json64) (k : string) : result json64 :=
  match obj with
  | JDict64 d => dict_getitem d k
  | _ => Raise TypeError
  end.

Fixpoint jpath64 (obj : json64) (path : list string) : option json64 :=
  match path with
  | [] => Some obj
  | k :: rest =>
      match obj with
      | JDict64 d =>
          match dict_get d k with
          | Some v => jpath64 v rest
          | None => None
          end
      | _ => None
      end
  end.

(** *** Files, state and history *)

Inductive file64 : Type :=
| NoFile64
| Unreadable64
| Malformed64
| Json64 (j : json64).

Definition os_path_exists64 (f : file64) : bool :=
  match f with NoFile64 => false | _ => true end.

Definition read_json64 (f : file64) : result json64 :=
  match f with
  | NoFile64 => Raise OSError
  | Unreadable64 => Raise OSError
  | Malformed64 => Raise JSONDecodeError
  | Json64 j => Ok j
  end.

(** [load_previous_state], lines 111-118. *)
Definition load_previous_state64 (state_file : file64) : json64 :=
  if negb (os_path_exists64 state_file) then JDict64 []
  else try_except (read_json64 state_file) (JDict64 []).

(** [save_state], lines 121-124. *)
Definition save_state64 (driver_values : dict Z) (utcnow : string) : file64 :=
  Json64
    (JDict64 [("drivers", JDict64 (map (fun kv => (fst kv, JInt64 (snd kv)))
                                       driver_values));
              ("timestamp", JStr64 utcnow)]).

(** Lines 136-139: [int(round(val - prev_val))] or 0. *)
Definition delta_of64 (val : Z) (prev_val : json64) : result Z :=
  match prev_val with
  | JBool64 b => Ok (val - (if b then 1 else 0))
  | JInt64 p => Ok (val - p)
  | JFloat64 f => v <- of_int64 val ;; round64 (v - f)%float
  | _ => Ok 0
  end.

Fixpoint compute_deltas_loop64 (items : list (string * Z))
    (prev_drivers : json64) (deltas : dict Z) : result (dict Z) :=
  match items with
  | [] => Ok deltas
  | (key, val) :: rest =>
      prev_val <- json_get64 prev_drivers key ;;
      d <- delta_of64 val prev_val ;;
      compute_deltas_loop64 rest prev_drivers (dict_set deltas key d)
  end.

(** [compute_deltas], lines 127-140. *)
Definition compute_deltas64 (current : dict Z) (previous : json64)
    : result (dict Z) :=
  prev_drivers <-
    (if isinstance_dict64 previous
     then json_get_default64 previous "drivers" (JDict64 [])
     else Ok (JDict64 [])) ;;
  compute_deltas_loop64 current prev_drivers [].

Definition empty_history64 : json64 := JDict64 [("points", JList64 [])].

(** [load_history], lines 147-157. *)
Definition load_history64 (history_file : file64) : json64 :=
  if negb (os_path_exists64 history_file) then empty_history64
  else
    try_except
      (data <- read_json64 history_file ;;
       has_points <- json_contains64 "points" data ;;
       if negb has_points then Ok empty_history64
       else
         points <- json_getitem64 data "points" ;;
         if negb (isinstance_list64 points) then Ok empty_history64
         else Ok data)
      empty_history64.

Definition history_entry64 (utcnow : string) (total_value : Z)
    (driver_values : dict Z) : json64 :=
  JDict64 [("timestamp", JStr64 utcnow);
           ("total", JInt64 total_value);
           ("drivers", JDict64 (map (fun kv => (fst kv, JInt64 (snd kv)))
                                    driver_values))].

(** [update_history], lines 160-175. *)
Definition update_history64 (history_file : file64) (total_value : Z)
    (driver_values : dict Z) (utcnow : string) : result file64 :=
  let history := load_history64 history_file in
  points <- json_get_default64 history "points" (JList64 []) ;;
  let entry := history_entry64 utcnow total_value driver_values in
  match points with
  | JList64 points =>
      let points := points ++ [entry] in
      let points :=
        if (MAX_HISTORY_POINTS <? List.length points)%nat
        then slice_last MAX_HISTORY_POINTS points
        else points in
      match history with
      | JDict64 history =>
          Ok (Json64 (JDict64 (dict_set history "points" (JList64 points))))
      | _ => Raise TypeError
      end
  | _ => Raise AttributeError
  end.

(** *** Mean-reverting simulation *)

(** [_get_prev_driver_value], lines 182-191. *)
Definition _get_prev_driver_value64 (prev_state : json64) (name : string)
    (default : float) : result float :=
  match prev_state with
  | JDict64 st =>
      match dict_get st "drivers" with
      | Some (JDict64 drivers) =>
          match dict_get drivers name with
          | Some val =>
              if isinstance_number64 val then float64 val else Ok default
          | None => Ok default
          end
      | Some _ => Ok default
      | None => Ok default
      end
  | _ => Ok default
  end.

(** Lines 208-215 of [simulate_driver], from the previous value on. *)
Definition simulate_step64 (prev_val base mean_reversion noise : float)
    : result Z :=
  let reversion := (mean_reversion * (base - prev_val))%float in
  let new_val := (prev_val + noise + reversion)%float in
  r <- round64 new_val ;;
  Ok (Py.maxZ 0 (Py.minZ 100 r)).

(** [simulate_driver], lines 194-215; [noise] is the value drawn by
    [random.uniform(-volatility, volatility)]. *)
Definition simulate_driver64 (name : string) (prev_state : json64)
    (base volatility mean_reversion : float) (noise : float) : result Z :=
  prev_val <- _get_prev_driver_value64 prev_state name base ;;
  simulate_step64 prev_val base mean_reversion noise.

Definition get_news_sentiment64 (prev_state : json64) (noise : float)
    : result Z :=
  simulate_driver64 "news" prev_state 50 6 0.4 noise.

Definition get_social_sentiment64 (prev_state : json64) (noise : float)
    : result Z :=
  simulate_driver64 "social" prev_state 50 8 0.45 noise.

Definition get_onchain_sentiment64 (prev_state : json64) (noise : float)
    : result Z :=
  simulate_driver64 "on_chain" prev_state 50 5 0.35 noise.

(** *** Main calculation *)

Definition weights64 : dict float :=
  [("fear_greed", 0.20%float); ("news", 0.15%float); ("social", 0.15%float);
   ("price_action", 0.20%float); ("on_chain", 0.15%float);
   ("liquidity", 0.15%float)].

(** The accumulation loop of lines 298-302. *)
Fixpoint weighted_sums64 (items : list (string * float))
    (driver_values : dict Z) (numerator denom : float)
    : result (float * float) :=
  match items with
  | [] => Ok (numerator, denom)
  | (key, w) :: rest =>
      v <- dict_getitem driver_values key ;;
      v <- of_int64 v ;;
      weighted_sums64 rest driver_values
        (numerator + v * w)%float (denom + w)%float
  end.

(** Lines 298-303. *)
Definition weighted_total64 (table : dict float) (driver_values : dict Z)
    : result Z :=
  nd <- weighted_sums64 table driver_values 0%float 0%float ;;
  let (numerator, denom) := nd in
  if (0 <? denom)%float then round64 (numerator / denom) else Ok 50.

(** What a run reads from outside: the two files, the answers of the
    sources, the three draws, the clock and the interpreter's [sum]. *)
Record Env64 : Type := {
  builtin_sum64 : list float -> float;
  state_file64 : file64;
  history_file64 : file64;
  fng_response64 : result Z;
  price_change_response64 : result float;
  volume_now_response64 : result float;
  volume_history_response64 : result (list float);
  noise_news64 : float;
  noise_social64 : float;
  noise_on_chain64 : float;
  utcnow_payload64 : string;
  utcnow_state64 : string;
  utcnow_history64 : string
}.

Record Files64 : Type := {
  new_state_file64 : file64;
  new_history_file64 : file64
}.

Definition driver_record64 (label : string) (value delta : Z) : json64 :=
  JDict64 [("label", JStr64 label); ("value", JInt64 value);
           ("delta", JInt64 delta)].

(** [build_sentiment_payload], lines 262-357. *)
Definition build_sentiment_payload64 (env : Env64)
    : result (json64 * Files64) :=
  let prev_state := load_previous_state64 (state_file64 env) in
  let fg := get_fear_greed (fng_response64 env) in
  let change_24h := get_btc_price_change64 (price_change_response64 env) in
  news <- get_news_sentiment64 prev_state (noise_news64 env) ;;
  social <- get_social_sentiment64 prev_state (noise_social64 env) ;;
  onchain <- get_onchain_sentiment64 prev_state (noise_on_chain64 env) ;;
  price_sent <- price_action_sentiment64 change_24h ;;
  let liquidity :=
    get_liquidity_sentiment64 (builtin_sum64 env)
                              (volume_now_response64 env)
                              (volume_history_response64 env) in
  let driver_values : dict Z :=
    [("fear_greed", fg); ("news", news); ("social", social);
     ("price_action", price_sent); ("on_chain", onchain);
     ("liquidity", liquidity)] in
  deltas <- compute_deltas64 driver_values prev_state ;;
  total_value <- weighted_total64 weights64 driver_values ;;
  v_fg <- dict_getitem driver_values "fear_greed" ;;
  d_fg <- dict_getitem deltas "fear_greed" ;;
  v_news <- dict_getitem driver_values "news" ;;
  d_news <- dict_getitem deltas "news" ;;
  v_social <- dict_getitem driver_values "social" ;;
  d_social <- dict_getitem deltas "social" ;;
  v_price <- dict_getitem driver_values "price_action" ;;
  d_price <- dict_getitem deltas "price_action" ;;
  v_chain <- dict_getitem driver_values "on_chain" ;;
  d_chain <- dict_getitem deltas "on_chain" ;;
  v_liq <- dict_getitem driver_values "liquidity" ;;
  d_liq <- dict_getitem deltas "liquidity" ;;
  let drivers_struct :=
    JDict64 [("fear_greed", driver_record64 "Fear & Greed" v_fg d_fg);
             ("news", driver_record64 "News Sentiment" v_news d_news);
             ("social", driver_record64 "Social Buzz" v_social d_social);
             ("price_action", driver_record64 "Price Action" v_price d_price);
             ("on_chain",
              driver_record64 "On-chain Activity" v_chain d_chain);
             ("liquidity", driver_record64 "Liquidity" v_liq d_liq)] in
  let payload :=
    JDict64 [("timestamp", JStr64 (utcnow_payload64 env));
             ("total", JDict64 [("value", JInt64 total_value)]);
             ("drivers", drivers_struct);
             ("value", JInt64 total_value);
             ("fear_greed", JInt64 fg);
             ("news_sentiment", JInt64 news);
             ("price_sentiment", JInt64 price_sent);
             ("price_change_24h", JFloat64 change_24h);
             ("liquidity_sentiment", JInt64 liquidity)] in
  let state' := save_state64 driver_values (utcnow_state64 env) in
  history' <- update_history64 (history_file64 env) total_value driver_values
                               (utcnow_history64 env) ;;
  Ok (payload,
      {| new_state_file64 := state'; new_history_file64 := history' |}).

End Binary64.

(** ** The vocabulary of the specification *)

(** "Clamp [x] to [[lo, hi]]". *)
Definition clampQ (lo hi x : Q) : Q :=
  if Qlt_le_dec x lo then lo else if Qlt_le_dec hi x then hi else x.

Definition clampZ (lo hi x : Z) : Z := Z.max lo (Z.min hi x).

(** "[z] is [x] rounded to the nearest integer". *)
Definition nearest_integer (x : Q) (z : Z) : Prop :=
  (Qabs (x - inject_Z z) <= 1 # 2)%Q.

(** The points of a history document. *)
Definition history_points (history : json) : list json :=
  match jpath history ["points"] with
  | Some (JList points) => points
  | _ => []
  end.

(** The value the state holds for a driver, when it is a number. *)
Definition state_value (prev_state : json) (name : string) : option Q :=
  match jpath prev_state ["drivers"; name] with
  | Some v => json_number v
  | None => None
  end.

(** ** Derived notions used in the statements *)


(** The score of lines 95-101 once the mean is known to be positive. *)
Definition liquidity_score (vol_now avg_vol : Q) : Z :=
  let ratio := Py.maxQ 0.25 (Py.minQ 2.5 (vol_now / avg_vol)) in
  Py.maxZ 0 (Py.minZ 100 (Py.round (50 + (ratio - 1) * 30))).

(** The weighted average of a list of weight and value pairs: the weighted
    sum over the sum of the weights. *)
Definition weighted_average (wv : list (Q * Z)) : Q :=
  (fold_right (fun p acc => fst p * inject_Z (snd p) + acc) 0 wv
   / fold_right (fun p acc => fst p + acc) 0 wv)%Q.

(** The six driver values as the dictionary of lines 276-283. *)
Definition six_drivers (fear_greed news social price_action on_chain
                        liquidity : Z) : dict Z :=
  [("fear_greed", fear_greed); ("news", news); ("social", social);
   ("price_action", price_action); ("on_chain", on_chain);
   ("liquidity", liquidity)].

(** The weighted average the specification names for six driver values. *)
Definition sentiment_average (fear_greed news social price_action on_chain
                              liquidity : Z) : Q :=
  weighted_average
    [(0.20%Q, fear_greed); (0.20%Q, price_action); (0.15%Q, news);
     (0.15%Q, social); (0.15%Q, on_chain); (0.15%Q, liquidity)].

(** What line 132 binds to [prev_drivers]. *)
Definition prev_drivers_of (previous : json) : json :=
  match previous with
  | JDict d =>
      match dict_get d "drivers" with
      | Some v => v
      | None => JDict []
      end
  | _ => JDict []
  end.

(** [prev_drivers.get(key)] once [prev_drivers] is known to be a dict. *)
Definition get_or_none (d : dict json) (key : string) : json :=
  match dict_get d key with
  | Some v => v
  | None => JNull
  end.

(** A JSON document has the shape of a history when it is a dict whose
    [points] entry is a list. *)
Definition history_shaped (j : json) : Prop :=
  exists d points, j = JDict d /\ dict_get d "points" = Some (JList points).

(** Lines 169-171: append, then keep the last [MAX_HISTORY_POINTS]. *)
Definition append_bounded (points : list json) (entry : json) : list json :=
  let points := points ++ [entry] in
  if (MAX_HISTORY_POINTS <? List.length points)%nat
  then slice_last MAX_HISTORY_POINTS points
  else points.

Definition full_history_file : file :=
  Json (JDict [("points",
                JList (map (fun n => JInt (Z.of_nat n)) (seq 0 200)))]).

(** The driver values of a run, lines 264-283. *)
Definition current_drivers (env : Env) : dict Z :=
  let prev_state := load_previous_state (state_file env) in
  six_drivers
    (get_fear_greed (fng_response env))
    (get_news_sentiment prev_state (noise_news env))
    (get_social_sentiment prev_state (noise_social env))
    (price_action_sentiment (get_btc_price_change (price_change_response env)))
    (get_onchain_sentiment prev_state (noise_on_chain env))
    (get_liquidity_sentiment (volume_now_response env)
                             (volume_history_response env)).

(** The total of a run, lines 298-303 with the weights of lines 289-296. *)
Definition current_total (env : Env) : Z :=
  let prev_state := load_previous_state (state_file env) in
  Py.round
    (sentiment_average
       (get_fear_greed (fng_response env))
       (get_news_sentiment prev_state (noise_news env))
       (get_social_sentiment prev_state (noise_social env))
       (price_action_sentiment
          (get_btc_price_change (price_change_response env)))
       (get_onchain_sentiment prev_state (noise_on_chain env))
       (get_liquidity_sentiment (volume_now_response env)
                                (volume_history_response env))).

(** The record of one driver in the payload, given the [drivers] dict of
    the previous state. *)
Definition current_record (env : Env) (d : dict json) (name label : string)
    : json :=
  match dict_get (current_drivers env) name with
  | Some v => driver_record label v (delta_of v (get_or_none d name))
  | None => JNull
  end.

(** The payload of a run whose previous state has the [drivers] dict [d]. *)
Definition current_payload (env : Env) (d : dict json) : json :=
  let value name := match dict_get (current_drivers env) name with
                    | Some v => JInt v
                    | None => JNull
                    end in
  JDict [("timestamp", JStr (utcnow_payload env));
         ("total", JDict [("value", JInt (current_total env))]);
         ("drivers",
          JDict [("fear_greed", current_record env d "fear_greed"
                                               "Fear & Greed");
                 ("news", current_record env d "news" "News Sentiment");
                 ("social", current_record env d "social" "Social Buzz");
                 ("price_action", current_record env d "price_action"
                                                 "Price Action");
                 ("on_chain", current_record env d "on_chain"
                                             "On-chain Activity");
                 ("liquidity", current_record env d "liquidity"
                                              "Liquidity")]);
         ("value", JInt (current_total env));
         ("fear_greed", value "fear_greed");
         ("news_sentiment", value "news");
         ("price_sentiment", value "price_action");
         ("price_change_24h",
          JFloat (get_btc_price_change (price_change_response env)));
         ("liquidity_sentiment", value "liquidity")].


(** A run with a previous state and a history of one point. *)
Definition sample_env : Env := {|
  state_file :=
    Json (JDict [("drivers",
                  JDict [("fear_greed", JInt 64); ("news", JInt 50);
                         ("social", JInt 50); ("price_action", JInt 50);
                         ("on_chain", JFloat 50); ("liquidity", JInt 70)]);
                 ("timestamp", JStr "2024-01-01T00:00:00")]);
  history_file := Json (JDict [("points", JList [JNull])]);
  fng_response := Ok 70;
  price_change_response := Ok 2%Q;
  volume_now_response := Ok 150%Q;
  volume_history_response := Ok [100%Q; 100%Q];
  noise_news := 3%Q;
  noise_social := (-4)%Q;
  noise_on_chain := 1%Q;
  utcnow_payload := "2024-01-02T00:00:00";
  utcnow_state := "2024-01-02T00:00:01";
  utcnow_history := "2024-01-02T00:00:02"
|}.

(** A first run on which the index source answers 1000 and every other
    source fails. *)
Definition index_1000_env : Env := {|
  state_file := NoFile;
  history_file := NoFile;
  fng_response := Ok 1000;
  price_change_response := Raise RequestException;
  volume_now_response := Raise RequestException;
  volume_history_response := Raise RequestException;
  noise_news := 0%Q;
  noise_social := 0%Q;
  noise_on_chain := 0%Q;
  utcnow_payload := "2024-01-02T00:00:00";
  utcnow_state := "2024-01-02T00:00:01";
  utcnow_history := "2024-01-02T00:00:02"
|}.

(** A state whose simulated drivers sit at the ends of the scale. *)
Definition extreme_state : json :=
  JDict [("drivers", JDict [("news", JInt 0); ("social", JInt 100);
                            ("on_chain", JFloat 0)]);
         ("timestamp", JStr "2024-01-01T00:00:00")].

(** [main], lines 360-365: what is left in the three files; the two
    [print] calls are not modelled. *)
Record Disk : Type := {
  disk_state : file;
  disk_history : file;
  disk_output : file
}.

Definition main (env : Env) : result Disk :=
  data <- build_sentiment_payload env ;;
  let (payload, files) := data in
  Ok {| disk_state := new_state_file files;
        disk_history := new_history_file files;
        disk_output := Json payload |}.

(** The history file after a series of calls of [update_history], one for
    each total, driver values and clock reading of the list. *)
Fixpoint update_history_many (history_file : file)
    (calls : list (Z * dict Z * string)) : result file :=
  match calls with
  | [] => Ok history_file
  | (total_value, driver_values, utcnow) :: rest =>
      history_file' <- update_history history_file total_value driver_values
                                      utcnow ;;
      update_history_many history_file' rest
  end.


(** The [drivers] object that [save_state] and [history_entry] write. *)
Definition drivers_json (driver_values : dict Z) : dict json :=
  map (fun kv => (fst kv, JInt (snd kv))) driver_values.

(** The history entry a call of [update_history_many] appends. *)
Definition entry_of (call : Z * dict Z * string) : json :=
  let '(total_value, driver_values, utcnow) := call in
  history_entry utcnow total_value driver_values.



(** * Properties *)

(** ** Rounding and clamping *)

(** Turns the outcome of a comparison into the order fact it stands for. *)
Ltac compare_to_order :=
  repeat match goal with
         | H : (_ ?= _)%Q = Eq |- _ => apply <- Qeq_alt in H
         | H : (_ ?= _)%Q = Lt |- _ => apply <- Qlt_alt in H
         | H : (_ ?= _)%Q = Gt |- _ => apply <- Qgt_alt in H
         end.

Lemma round_comp (x y : Q) : (x == y)%Q -> Py.round x = Py.round y.
Proof.
  intros E. unfold Py.round.
  rewrite (Qfloor_comp x y E).
  assert (C : ((x - inject_Z (Qfloor y) ?= 1 # 2) =
               (y - inject_Z (Qfloor y) ?= 1 # 2))%Q).
  { apply Qcompare_comp; [rewrite E|]; reflexivity. }
  rewrite C. reflexivity.
Qed.

Lemma inject_Z_succ (z : Z) : (inject_Z (z + 1) == inject_Z z + 1)%Q.
Proof. rewrite inject_Z_plus. reflexivity. Qed.

Lemma round_nearest (x : Q) : nearest_integer x (Py.round x).
Proof.
  unfold nearest_integer, Py.round.
  pose proof (Qfloor_le x) as Hlo.
  pose proof (Qlt_floor x) as Hhi.
  rewrite inject_Z_succ in Hhi.
  set (f := Qfloor x) in *. clearbody f.
  apply Qabs_Qle_condition.
  destruct (x - inject_Z f ?= 1 # 2)%Q eqn:C.
  - compare_to_order.
    destruct (Z.even f); [|rewrite inject_Z_succ]; split; lra.
  - compare_to_order. split; lra.
  - compare_to_order. rewrite inject_Z_succ. split; lra.
Qed.

Lemma round_inject_Z (z : Z) : Py.round (inject_Z z) = z.
Proof.
  unfold Py.round. rewrite Qfloor_Z.
  assert (C : (inject_Z z - inject_Z z ?= 1 # 2)%Q = Lt).
  { apply -> Qlt_alt. lra. }
  rewrite C. reflexivity.
Qed.

(** A rounded value stays between integer bounds of its argument. *)
Lemma round_between (lo hi : Z) (x : Q) :
  (inject_Z lo <= x)%Q -> (x <= inject_Z hi)%Q -> lo <= Py.round x <= hi.
Proof.
  intros Hlo Hhi.
  pose proof (round_nearest x) as N. unfold nearest_integer in N.
  apply Qabs_Qle_condition in N. destruct N as [N1 N2].
  split.
  - assert (H : (inject_Z lo < inject_Z (Py.round x + 1))%Q).
    { rewrite inject_Z_succ. lra. }
    rewrite <- Zlt_Qlt in H. lia.
  - assert (H : (inject_Z (Py.round x) < inject_Z (hi + 1))%Q).
    { rewrite inject_Z_succ. lra. }
    rewrite <- Zlt_Qlt in H. lia.
Qed.

Lemma maxZ_minZ_clamp (lo hi z : Z) :
  Py.maxZ lo (Py.minZ hi z) = clampZ lo hi z.
Proof.
  unfold Py.maxZ, Py.minZ, clampZ.
  destruct (z <? hi) eqn:A; destruct (lo <? _) eqn:B; lia.
Qed.

Lemma clampZ_range (lo hi z : Z) : lo <= hi -> lo <= clampZ lo hi z <= hi.
Proof. unfold clampZ. lia. Qed.

Lemma maxQ_minQ_clamp (lo hi x : Q) :
  (lo <= hi)%Q -> (Py.maxQ lo (Py.minQ hi x) == clampQ lo hi x)%Q.
Proof.
  intros L. unfold Py.maxQ, Py.minQ, clampQ.
  destruct (x ?= hi)%Q eqn:A;
    match goal with |- context [(lo ?= ?m)%Q] =>
      destruct (lo ?= m)%Q eqn:B end;
    destruct (Qlt_le_dec x lo); destruct (Qlt_le_dec hi x);
    compare_to_order; lra.
Qed.

Lemma clampQ_range (lo hi x : Q) :
  (lo <= hi)%Q -> (lo <= clampQ lo hi x <= hi)%Q.
Proof.
  intros L. unfold clampQ.
  destruct (Qlt_le_dec x lo); [|destruct (Qlt_le_dec hi x)]; lra.
Qed.

Lemma clampQ_comp (lo hi x y : Q) :
  (x == y)%Q -> (clampQ lo hi x == clampQ lo hi y)%Q.
Proof.
  intros E. unfold clampQ.
  destruct (Qlt_le_dec x lo); destruct (Qlt_le_dec y lo);
    destruct (Qlt_le_dec hi x); destruct (Qlt_le_dec hi y); lra.
Qed.

Lemma leQ_true (a b : Q) : Py.leQ a b = true <-> (a <= b)%Q.
Proof.
  unfold Py.leQ. rewrite Qle_alt.
  destruct (a ?= b)%Q; split; intros; congruence.
Qed.


(** ** Price action (C3) *)

Lemma price_action_sentiment_clamp (change : Q) :
  price_action_sentiment change =
  clampZ 0 100 (Py.round (50 + clampQ (-10) 10 change * 3)).
Proof.
  unfold price_action_sentiment.
  rewrite maxZ_minZ_clamp. f_equal. apply round_comp.
  rewrite maxQ_minQ_clamp by lra. reflexivity.
Qed.

Lemma price_action_sentiment_range (change : Q) :
  0 <= price_action_sentiment change <= 100.
Proof.
  rewrite price_action_sentiment_clamp. apply clampZ_range. lia.
Qed.


(** ** Liquidity (C4) *)



Lemma liquidity_score_clamp (vol_now avg_vol m : Q) :
  (avg_vol == m)%Q ->
  liquidity_score vol_now avg_vol =
  clampZ 0 100
    (Py.round (50 + (clampQ 0.25 2.5 (vol_now / m) - 1) * 30)).
Proof.
  intros E. unfold liquidity_score.
  rewrite maxZ_minZ_clamp. f_equal. apply round_comp.
  rewrite maxQ_minQ_clamp by lra.
  rewrite (clampQ_comp _ _ (vol_now / avg_vol) (vol_now / m))
    by (rewrite E; reflexivity).
  reflexivity.
Qed.

Lemma get_liquidity_sentiment_cases (vol_now : Q) (vols : list Q) :
  get_liquidity_sentiment (Ok vol_now) (Ok vols) =
  match vols with
  | [] => 50
  | _ =>
      if Py.leQ (Py.sum vols / inject_Z (Z.of_nat (List.length vols))) 0
      then 50
      else liquidity_score
             vol_now (Py.sum vols / inject_Z (Z.of_nat (List.length vols)))
  end.
Proof.
  unfold get_liquidity_sentiment, liquidity_score. simpl.
  destruct vols as [|v vols]; [reflexivity|].
  cbv zeta. destruct (Py.leQ _ 0); reflexivity.
Qed.

Lemma liquidity_score_range (vol_now avg_vol : Q) :
  0 <= liquidity_score vol_now avg_vol <= 100.
Proof.
  unfold liquidity_score. rewrite maxZ_minZ_clamp. apply clampZ_range. lia.
Qed.

Lemma get_liquidity_sentiment_range (vol_now : result Q)
    (vols : result (list Q)) :
  0 <= get_liquidity_sentiment vol_now vols <= 100.
Proof.
  destruct vol_now as [vol_now|e]; [|cbn; lia].
  destruct vols as [vols|e]; [|cbn; lia].
  rewrite get_liquidity_sentiment_cases.
  destruct vols as [|v vols]; [lia|].
  destruct (Py.leQ _ 0); [lia|apply liquidity_score_range].
Qed.



(** ** The weighted total (C2) *)

Lemma weighted_total_six (fg news social price on_chain liq : Z) :
  weighted_total weights (six_drivers fg news social price on_chain liq) =
  Ok (Py.round (sentiment_average fg news social price on_chain liq)).
Proof.
  unfold weighted_total, weights, six_drivers.
  cbn [weighted_sums bind dict_getitem dict_get String.eqb Ascii.eqb
       Bool.eqb].
  match goal with |- context [Py.ltQ 0 ?d] =>
    replace (Py.ltQ 0 d) with true by reflexivity end.
  f_equal. apply round_comp.
  unfold sentiment_average, weighted_average.
  cbn [fold_right fst snd]. field.
Qed.

(** ** Dictionaries *)

Section DictFacts.
Context {V : Type}.
Implicit Types (d : dict V) (k : string) (v : V).

Lemma dict_get_set_same d k v : dict_get (dict_set d k v) k = Some v.
Proof.
  induction d as [|[k' v'] d IH]; simpl.
  - rewrite String.eqb_refl. reflexivity.
  - destruct (String.eqb k' k) eqn:E; simpl; rewrite E; auto.
Qed.

Lemma dict_get_absent d k : ~ In k (keys d) -> dict_get d k = None.
Proof.
  induction d as [|[k' v'] d IH]; simpl; intros N; [reflexivity|].
  destruct (String.eqb_spec k' k) as [->|NE]; [tauto|].
  apply IH. tauto.
Qed.

Lemma dict_set_fresh d k v :
  ~ In k (keys d) -> dict_set d k v = d ++ [(k, v)].
Proof.
  induction d as [|[k' v'] d IH]; simpl; intros N; [reflexivity|].
  destruct (String.eqb_spec k' k) as [->|NE]; [tauto|].
  rewrite IH by tauto. reflexivity.
Qed.
End DictFacts.

(** ** Deltas (C6) *)

Lemma compute_deltas_unfold (current : dict Z) (previous : json) :
  compute_deltas current previous =
  compute_deltas_loop current (prev_drivers_of previous) [].
Proof. destruct previous; reflexivity. Qed.

Lemma compute_deltas_loop_dict (items : list (string * Z)) (d : dict json)
    (deltas : dict Z) :
  compute_deltas_loop items (JDict d) deltas =
  Ok (fold_left
        (fun acc kv =>
           dict_set acc (fst kv) (delta_of (snd kv) (get_or_none d (fst kv))))
        items deltas).
Proof.
  revert deltas. induction items as [|[key val] items IH]; intros deltas.
  - reflexivity.
  - simpl. apply IH.
Qed.

Lemma compute_deltas_loop_not_dict (items : list (string * Z))
    (prev_drivers : json) (deltas : dict Z) :
  items <> [] -> isinstance_dict prev_drivers = false ->
  compute_deltas_loop items prev_drivers deltas = Raise AttributeError.
Proof.
  intros NE ND. destruct items as [|[key val] items]; [congruence|].
  destruct prev_drivers; try discriminate; reflexivity.
Qed.

Lemma fold_dict_set_fresh {V W : Type} (f : string * W -> V)
    (items : list (string * W)) (acc : dict V) :
  NoDup (keys items) ->
  (forall k, In k (keys items) -> ~ In k (keys acc)) ->
  fold_left (fun acc kv => dict_set acc (fst kv) (f kv)) items acc =
  acc ++ map (fun kv => (fst kv, f kv)) items.
Proof.
  revert acc. induction items as [|[k w] items IH]; intros acc ND F; simpl.
  - rewrite app_nil_r. reflexivity.
  - inversion ND as [|? ? NI ND']; subst.
    rewrite dict_set_fresh by (apply F; left; reflexivity).
    rewrite IH; [rewrite <- app_assoc; reflexivity | assumption |].
    intros k' I. unfold keys. rewrite map_app, in_app_iff. simpl.
    intros [I' | [<- | []]].
    + apply (F k'); [right; exact I | exact I'].
    + apply NI, I.
Qed.

(** Deltas for a state whose [drivers] entry is a dict or is absent: one
    delta per current driver, in the order of the current map. *)
Lemma compute_deltas_dict (current : dict Z) (previous : json)
    (d : dict json) :
  NoDup (keys current) ->
  prev_drivers_of previous = JDict d ->
  compute_deltas current previous =
  Ok (map (fun kv => (fst kv, delta_of (snd kv) (get_or_none d (fst kv))))
          current).
Proof.
  intros ND E.
  rewrite compute_deltas_unfold, E, compute_deltas_loop_dict.
  rewrite (fold_dict_set_fresh
             (fun kv => delta_of (snd kv) (get_or_none d (fst kv))))
    by (auto; intros k _ []).
  reflexivity.
Qed.

Lemma delta_of_number (val : Z) (prev_val : json) (p : Q) :
  json_number prev_val = Some p ->
  delta_of val prev_val = Py.round (inject_Z val - p).
Proof. unfold delta_of. intros ->. reflexivity. Qed.

Lemma delta_of_int (val p : Z) : delta_of val (JInt p) = val - p.
Proof.
  unfold delta_of. simpl.
  rewrite (round_comp _ (inject_Z (val - p))); [apply round_inject_Z|].
  unfold Z.sub. rewrite inject_Z_plus, inject_Z_opp. reflexivity.
Qed.

Lemma delta_of_not_number (val : Z) (prev_val : json) :
  json_number prev_val = None -> delta_of val prev_val = 0.
Proof. unfold delta_of. intros ->. reflexivity. Qed.

(** C6. The state [{"drivers": null}] is one for which the previous state
    holds no numeric value, so every delta should be 0; [compute_deltas]
    raises [AttributeError] on it for the current map [{"fear_greed": 55}],
    while [_get_prev_driver_value] falls back to its default on the same
    state.  With a [drivers] dict the deltas are the expected ones. *)
Theorem compute_deltas_raises_on_corrupt_drivers :
  compute_deltas [("fear_greed", 55)] (JDict [("drivers", JNull)])
  = Raise AttributeError
  /\ _get_prev_driver_value (JDict [("drivers", JNull)]) "fear_greed" 50 = 50%Q
  /\ compute_deltas [("fear_greed", 55)]
       (JDict [("drivers", JDict [("fear_greed", JInt 40)])])
     = Ok [("fear_greed", 15)]
  /\ compute_deltas [("fear_greed", 55)] (JDict [])
     = Ok [("fear_greed", 0)].
Proof. repeat split. Qed.

(** ** Loading the persisted files (C9) *)

Lemma history_shaped_empty : history_shaped empty_history.
Proof. exists [("points", JList [])], []. split; reflexivity. Qed.

(** On a JSON document [load_history] returns the document when it has the
    shape of a history, and the empty history otherwise. *)
Lemma load_history_json (j : json) :
  (history_shaped j /\ load_history (Json j) = j)
  \/ (~ history_shaped j /\ load_history (Json j) = empty_history).
Proof.
  unfold load_history. simpl.
  destruct j as [| b | z | q | s | l | d];
    try (right; split; [intros (d' & p' & E & _); discriminate | reflexivity]).
  - right. split; [intros (d' & p' & E & _); discriminate|].
    unfold json_contains. destruct (index 0 "points" s); reflexivity.
  - right. split; [intros (d' & p' & E & _); discriminate|].
    unfold json_contains. destruct (existsb _ l); reflexivity.
  - simpl. unfold dict_getitem.
    destruct (dict_get d "points") as [p|] eqn:G; simpl.
    + destruct p as [| b | z | q | s | l | d'];
        try (right; split;
             [intros (d0 & p0 & E & G0); injection E as <-; congruence
             | reflexivity]).
      left. split; [exists d, l; auto | reflexivity].
    + right. split; [|reflexivity].
      intros (d0 & p0 & E & G0). injection E as <-. congruence.
Qed.

Lemma load_history_shaped (history_file : file) :
  history_shaped (load_history history_file).
Proof.
  destruct history_file as [| | | j];
    try apply history_shaped_empty.
  destruct (load_history_json j) as [[S ->] | [_ ->]];
    [exact S | apply history_shaped_empty].
Qed.

(** ** The bounded history (C7) *)

Lemma update_history_ok (history_file : file) (total_value : Z)
    (driver_values : dict Z) (utcnow : string) :
  exists h,
    load_history history_file = JDict h
    /\ update_history history_file total_value driver_values utcnow =
       Ok (Json (JDict
                   (dict_set h "points"
                      (JList (append_bounded
                                (history_points (load_history history_file))
                                (history_entry utcnow total_value
                                               driver_values)))))).
Proof.
  destruct (load_history_shaped history_file) as (h & points & E & G).
  exists h. split; [exact E|].
  unfold update_history, history_points. rewrite E. simpl. rewrite G.
  reflexivity.
Qed.

Lemma append_bounded_split (points : list json) (entry : json) :
  exists dropped kept,
    points = dropped ++ kept
    /\ append_bounded points entry = kept ++ [entry]
    /\ List.length (append_bounded points entry) =
       Nat.min MAX_HISTORY_POINTS (S (List.length points)).
Proof.
  unfold append_bounded, slice_last, MAX_HISTORY_POINTS.
  rewrite length_app. simpl List.length.
  destruct (200 <? List.length points + 1)%nat eqn:C.
  - apply Nat.ltb_lt in C.
    exists (firstn (List.length points - 199) points),
           (skipn (List.length points - 199) points).
    split; [symmetry; apply firstn_skipn|].
    replace (List.length points + 1 - 200)%nat
      with (List.length points - 199)%nat by lia.
    rewrite skipn_app.
    replace (List.length points - 199 - List.length points)%nat with 0%nat
      by lia.
    split; [reflexivity|].
    rewrite length_app, length_skipn. simpl List.length. lia.
  - apply Nat.ltb_ge in C.
    exists [], points. split; [reflexivity|]. split; [reflexivity|].
    rewrite length_app. simpl List.length. lia.
Qed.

(** C7. Whatever history is loaded, [update_history] stores a log of at
    most 200 points, made of the newest loaded points in their order
    followed by the new entry: the points that go are the oldest.  When 200
    points were loaded the stored log has 200 points, starts with the
    second loaded point and ends with the new entry. *)
Theorem update_history_bounded (history_file : file) (total_value : Z)
    (driver_values : dict Z) (utcnow : string) :
  let old := history_points (load_history history_file) in
  let entry := history_entry utcnow total_value driver_values in
  exists h new,
    update_history history_file total_value driver_values utcnow =
      Ok (Json (JDict h))
    /\ dict_get h "points" = Some (JList new)
    /\ (List.length new <= 200)%nat
    /\ List.length new = Nat.min 200 (S (List.length old))
    /\ (exists dropped kept, old = dropped ++ kept /\ new = kept ++ [entry])
    /\ (List.length old = 200%nat ->
        List.length new = 200%nat
        /\ nth_error new 0 = nth_error old 1
        /\ nth_error new 199 = Some entry).
Proof.
  cbv zeta.
  destruct (update_history_ok history_file total_value driver_values utcnow)
    as (h & _ & U).
  set (old := history_points (load_history history_file)) in *.
  set (entry := history_entry utcnow total_value driver_values) in *.
  destruct (append_bounded_split old entry) as (dropped & kept & E & A & L).
  change MAX_HISTORY_POINTS with 200%nat in L.
  exists (dict_set h "points" (JList (append_bounded old entry))),
         (append_bounded old entry).
  split; [exact U|].
  split; [apply dict_get_set_same|].
  split; [lia|]. split; [exact L|].
  split; [exists dropped, kept; auto|].
  intros L200. rewrite A in *. rewrite length_app in L. simpl List.length in L.
  assert (LK : List.length kept = 199%nat) by lia.
  assert (LD : List.length dropped = 1%nat).
  { rewrite E, length_app in L200. lia. }
  split; [rewrite length_app; simpl List.length; lia|].
  split.
  - rewrite nth_error_app1 by lia.
    rewrite E, nth_error_app2 by lia. rewrite LD. reflexivity.
  - rewrite nth_error_app2 by lia. rewrite LK. reflexivity.
Qed.

Lemma update_history_bounded_witness :
  List.length (history_points (load_history full_history_file)) = 200%nat
  /\ exists h new,
      update_history full_history_file 50 (six_drivers 50 50 50 50 50 50)
                     "2024-01-01T00:00:00" = Ok (Json (JDict h))
      /\ dict_get h "points" = Some (JList new)
      /\ List.length new = 200%nat
      /\ nth_error new 0 = Some (JInt 1)
      /\ nth_error new 199 =
         Some (history_entry "2024-01-01T00:00:00" 50
                             (six_drivers 50 50 50 50 50 50)).
Proof.
  split; [reflexivity|].
  destruct (update_history_bounded full_history_file 50
              (six_drivers 50 50 50 50 50 50) "2024-01-01T00:00:00")
    as (h & new & U & G & _ & _ & _ & F).
  destruct (F eq_refl) as (L & N0 & N199).
  exists h, new. repeat split; assumption.
Defined.

(** ** The simulator (C5) *)

Lemma _get_prev_driver_value_state (prev_state : json) (name : string)
    (default : Q) :
  _get_prev_driver_value prev_state name default =
  match state_value prev_state name with
  | Some q => q
  | None => default
  end.
Proof.
  unfold _get_prev_driver_value, state_value, jpath.
  destruct prev_state as [| | | | | |st]; try reflexivity.
  destruct (dict_get st "drivers") as [drivers|]; [|reflexivity].
  destruct drivers as [| | | | | |drivers]; try reflexivity.
  destruct (dict_get drivers name) as [val|]; reflexivity.
Qed.

Lemma simulate_driver_clamp (name : string) (prev_state : json)
    (base volatility mean_reversion noise : Q) :
  simulate_driver name prev_state base volatility mean_reversion noise =
  clampZ 0 100
    (Py.round
       (_get_prev_driver_value prev_state name base + noise
        + mean_reversion
          * (base - _get_prev_driver_value prev_state name base))).
Proof. unfold simulate_driver. apply maxZ_minZ_clamp. Qed.

Lemma simulate_driver_range (name : string) (prev_state : json)
    (base volatility mean_reversion noise : Q) :
  0 <= simulate_driver name prev_state base volatility mean_reversion noise
    <= 100.
Proof. rewrite simulate_driver_clamp. apply clampZ_range. lia. Qed.

Lemma get_news_sentiment_range (prev_state : json) (noise : Q) :
  0 <= get_news_sentiment prev_state noise <= 100.
Proof. unfold get_news_sentiment. exact (simulate_driver_range _ _ _ _ _ _). Qed.

Lemma get_social_sentiment_range (prev_state : json) (noise : Q) :
  0 <= get_social_sentiment prev_state noise <= 100.
Proof.
  unfold get_social_sentiment. exact (simulate_driver_range _ _ _ _ _ _).
Qed.

Lemma get_onchain_sentiment_range (prev_state : json) (noise : Q) :
  0 <= get_onchain_sentiment prev_state noise <= 100.
Proof.
  unfold get_onchain_sentiment. exact (simulate_driver_range _ _ _ _ _ _).
Qed.




(** ** A whole run *)

Lemma weighted_total_current (env : Env) :
  weighted_total weights (current_drivers env) = Ok (current_total env).
Proof. apply weighted_total_six. Qed.

(** A run succeeds as soon as the [drivers] entry of the previous state is
    a dict or is absent. *)
Lemma build_sentiment_payload_dict (env : Env) (d : dict json) :
  prev_drivers_of (load_previous_state (state_file env)) = JDict d ->
  exists history',
    update_history (history_file env) (current_total env)
                   (current_drivers env) (utcnow_history env) = Ok history'
    /\ build_sentiment_payload env =
       Ok (current_payload env d,
           {| new_state_file :=
                save_state (current_drivers env) (utcnow_state env);
              new_history_file := history' |}).
Proof.
  intros E.
  destruct (update_history_ok (history_file env) (current_total env)
              (current_drivers env) (utcnow_history env)) as (h & _ & U).
  eexists. split; [exact U|].
  unfold build_sentiment_payload. cbv zeta.
  rewrite compute_deltas_unfold, E, compute_deltas_loop_dict.
  cbn [fold_left dict_set fst snd String.eqb Ascii.eqb Bool.eqb bind].
  match goal with |- context [weighted_total weights ?l] =>
    change l with (current_drivers env) end.
  rewrite weighted_total_current.
  cbn [bind dict_getitem dict_get current_drivers six_drivers
       String.eqb Ascii.eqb Bool.eqb].
  fold (current_drivers env). rewrite U.
  reflexivity.
Qed.

(** A run whose previous state has something else under [drivers] raises
    before it writes anything. *)
Lemma build_sentiment_payload_not_dict (env : Env) :
  isinstance_dict (prev_drivers_of (load_previous_state (state_file env)))
  = false ->
  build_sentiment_payload env = Raise AttributeError.
Proof.
  intros ND. unfold build_sentiment_payload. cbv zeta.
  rewrite compute_deltas_unfold.
  rewrite compute_deltas_loop_not_dict; [reflexivity|discriminate|exact ND].
Qed.

Lemma build_sentiment_payload_inv (env : Env) (payload : json)
    (files : Files) :
  build_sentiment_payload env = Ok (payload, files) ->
  exists d history',
    prev_drivers_of (load_previous_state (state_file env)) = JDict d
    /\ update_history (history_file env) (current_total env)
                      (current_drivers env) (utcnow_history env) = Ok history'
    /\ payload = current_payload env d
    /\ files = {| new_state_file :=
                    save_state (current_drivers env) (utcnow_state env);
                  new_history_file := history' |}.
Proof.
  intros B.
  destruct (prev_drivers_of (load_previous_state (state_file env)))
    as [| | | | | |d] eqn:E;
    try (rewrite build_sentiment_payload_not_dict in B
           by (rewrite E; reflexivity); discriminate).
  destruct (build_sentiment_payload_dict env d E) as (history' & U & B').
  rewrite B' in B. injection B as <- <-.
  exists d, history'. auto.
Qed.

(** ** The weighted total in a run (C2) *)



Lemma sentiment_average_sum (fg news social price on_chain liq : Z) :
  (sentiment_average fg news social price on_chain liq ==
   0.20 * inject_Z fg + 0.20 * inject_Z price + 0.15 * inject_Z news
   + 0.15 * inject_Z social + 0.15 * inject_Z on_chain
   + 0.15 * inject_Z liq)%Q.
Proof.
  unfold sentiment_average, weighted_average. cbn [fold_right fst snd].
  field.
Qed.




(** ** Ranges (C1) *)

Lemma current_total_range (env : Env) :
  0 <= get_fear_greed (fng_response env) <= 100 ->
  0 <= current_total env <= 100.
Proof.
  intros F. unfold current_total.
  set (prev_state := load_previous_state (state_file env)).
  pose proof (get_news_sentiment_range prev_state (noise_news env)) as N.
  pose proof (get_social_sentiment_range prev_state (noise_social env)) as S.
  pose proof (get_onchain_sentiment_range prev_state (noise_on_chain env))
    as O.
  pose proof (price_action_sentiment_range
                (get_btc_price_change (price_change_response env))) as P.
  pose proof (get_liquidity_sentiment_range
                (volume_now_response env) (volume_history_response env)) as L.
  revert F N S O P L.
  generalize (get_fear_greed (fng_response env)) as fg.
  generalize (get_news_sentiment prev_state (noise_news env)) as news.
  generalize (get_social_sentiment prev_state (noise_social env)) as social.
  generalize (price_action_sentiment
                (get_btc_price_change (price_change_response env))) as price.
  generalize (get_onchain_sentiment prev_state (noise_on_chain env))
    as on_chain.
  generalize (get_liquidity_sentiment (volume_now_response env)
                (volume_history_response env)) as liq.
  intros liq on_chain price social news fg F N S O P L.
  apply round_between; rewrite sentiment_average_sum;
    rewrite !Zle_Qle in *; change (inject_Z 0) with 0%Q in *;
    change (inject_Z 100) with 100%Q in *; lra.
Qed.

(** Five of the six drivers are always within [0, 100], and so are the
    sixth and the total when the published index is. *)
Lemma drivers_in_range (env : Env) (name : string) (v : Z) :
  dict_get (current_drivers env) name = Some v ->
  name <> "fear_greed" \/ 0 <= get_fear_greed (fng_response env) <= 100 ->
  0 <= v <= 100.
Proof.
  unfold current_drivers, six_drivers. cbn [dict_get].
  destruct (String.eqb_spec "fear_greed" name) as [<-|_].
  { intros [= <-] [C|R]; [congruence | exact R]. }
  destruct (String.eqb_spec "news" name) as [<-|_].
  { intros [= <-] _. apply get_news_sentiment_range. }
  destruct (String.eqb_spec "social" name) as [<-|_].
  { intros [= <-] _. apply get_social_sentiment_range. }
  destruct (String.eqb_spec "price_action" name) as [<-|_].
  { intros [= <-] _. apply price_action_sentiment_range. }
  destruct (String.eqb_spec "on_chain" name) as [<-|_].
  { intros [= <-] _. apply get_onchain_sentiment_range. }
  destruct (String.eqb_spec "liquidity" name) as [<-|_].
  { intros [= <-] _. apply get_liquidity_sentiment_range. }
  discriminate.
Qed.

(** C1. [get_fear_greed] returns the published number as it is: when the
    index source answers 1000 the payload carries a fear_greed value of 1000
    and a total of 240, both outside [0, 100]; the total is 240 on binary64
    floats too. *)
Theorem index_value_not_clamped :
  exists payload files,
    build_sentiment_payload index_1000_env = Ok (payload, files)
    /\ current_drivers index_1000_env = six_drivers 1000 50 50 50 50 50
    /\ jpath payload ["drivers"; "fear_greed"; "value"] = Some (JInt 1000)
    /\ jpath payload ["total"; "value"] = Some (JInt 240)
    /\ Binary64.weighted_total64 Binary64.weights64
         (six_drivers 1000 50 50 50 50 50) = Ok 240.
Proof.
  eexists. eexists. split; [vm_compute; reflexivity|].
  repeat split.
Qed.

(** ** Legacy fields (C10) *)

Lemma payload_legacy (env : Env) (d : dict json) :
  exists total fg news price liq,
    (jpath (current_payload env d) ["value"] = Some (JInt total)
     /\ jpath (current_payload env d) ["total"; "value"] = Some (JInt total))
    /\ (jpath (current_payload env d) ["fear_greed"] = Some (JInt fg)
        /\ jpath (current_payload env d) ["drivers"; "fear_greed"; "value"]
           = Some (JInt fg))
    /\ (jpath (current_payload env d) ["news_sentiment"] = Some (JInt news)
        /\ jpath (current_payload env d) ["drivers"; "news"; "value"]
           = Some (JInt news))
    /\ (jpath (current_payload env d) ["price_sentiment"] = Some (JInt price)
        /\ jpath (current_payload env d) ["drivers"; "price_action"; "value"]
           = Some (JInt price))
    /\ (jpath (current_payload env d) ["liquidity_sentiment"]
        = Some (JInt liq)
        /\ jpath (current_payload env d) ["drivers"; "liquidity"; "value"]
           = Some (JInt liq)).
Proof. do 5 eexists. repeat split. Qed.

(** C10. In every payload that [build_sentiment_payload] returns, [value]
    is [total.value], and [fear_greed], [news_sentiment], [price_sentiment]
    and [liquidity_sentiment] are the [value] fields of the driver records
    [fear_greed], [news], [price_action] and [liquidity]. *)
Theorem legacy_fields_agree (env : Env) (payload : json) (files : Files) :
  build_sentiment_payload env = Ok (payload, files) ->
  exists total fg news price liq,
    (jpath payload ["value"] = Some (JInt total)
     /\ jpath payload ["total"; "value"] = Some (JInt total))
    /\ (jpath payload ["fear_greed"] = Some (JInt fg)
        /\ jpath payload ["drivers"; "fear_greed"; "value"] = Some (JInt fg))
    /\ (jpath payload ["news_sentiment"] = Some (JInt news)
        /\ jpath payload ["drivers"; "news"; "value"] = Some (JInt news))
    /\ (jpath payload ["price_sentiment"] = Some (JInt price)
        /\ jpath payload ["drivers"; "price_action"; "value"]
           = Some (JInt price))
    /\ (jpath payload ["liquidity_sentiment"] = Some (JInt liq)
        /\ jpath payload ["drivers"; "liquidity"; "value"]
           = Some (JInt liq)).
Proof.
  intros B. apply build_sentiment_payload_inv in B.
  destruct B as (d & h' & _ & _ & -> & _).
  apply payload_legacy.
Qed.

Lemma legacy_fields_agree_witness :
  exists payload files,
    build_sentiment_payload sample_env = Ok (payload, files)
    /\ jpath payload ["value"] = jpath payload ["total"; "value"]
    /\ jpath payload ["fear_greed"] =
       jpath payload ["drivers"; "fear_greed"; "value"]
    /\ jpath payload ["news_sentiment"] =
       jpath payload ["drivers"; "news"; "value"]
    /\ jpath payload ["price_sentiment"] =
       jpath payload ["drivers"; "price_action"; "value"]
    /\ jpath payload ["liquidity_sentiment"] =
       jpath payload ["drivers"; "liquidity"; "value"].
Proof.
  pose proof (legacy_fields_agree sample_env) as A.
  destruct (build_sentiment_payload sample_env) as [[p f]|e] eqn:H.
  - exists p, f. split; [reflexivity|].
    destruct (A p f eq_refl)
      as (t & fg & n & pr & l & [-> ->] & [-> ->] & [-> ->] & [-> ->]
          & [-> ->]).
    repeat split.
  - vm_compute in H. discriminate.
Defined.

(** ** The first run (C8) *)



(** ** Loading never raises (C9) *)





(** ** Agreement with binary64 arithmetic *)

(** The values the statements name are those of the float computation. *)
Lemma binary64_price_action :
  Binary64.price_action_sentiment64 0 = Ok (price_action_sentiment 0)
  /\ Binary64.price_action_sentiment64 10 = Ok (price_action_sentiment 10)
  /\ Binary64.price_action_sentiment64 (-10) = Ok (price_action_sentiment (-10))
  /\ Binary64.price_action_sentiment64 25 = Ok (price_action_sentiment 25)
  /\ Binary64.price_action_sentiment64 2 = Ok (price_action_sentiment 2)
  /\ Binary64.price_action_sentiment64 (-3.2) =
     Ok (price_action_sentiment (-3.2)).
Proof. vm_compute. repeat split. Qed.

(** A NaN change is absorbed by the first clamp. *)
Lemma binary64_price_action_nan :
  Binary64.price_action_sentiment64 nan = Ok 80
  /\ Binary64.price_action_sentiment64 infinity = Ok 80
  /\ Binary64.price_action_sentiment64 neg_infinity = Ok 20.
Proof. vm_compute. repeat split. Qed.

Lemma binary64_liquidity :
  let score v vols :=
    Binary64.get_liquidity_sentiment64 Binary64.sum_left64 (Ok v) (Ok vols) in
  score 7%float [] = 50
  /\ score 7%float [3; -5]%float = 50
  /\ score 120%float [100; 200; 60]%float = 50
  /\ score 130%float [100; 100]%float = 59
  /\ score 1000000%float [100; 100]%float = 95
  /\ score infinity [100; 100]%float = 95
  /\ score 1%float [4]%float = 28.
Proof. vm_compute. repeat split. Qed.

Lemma binary64_weighted_total :
  Binary64.weighted_sums64 Binary64.weights64 (six_drivers 0 0 0 0 0 0) 0 0
  = Ok (0%float, 1%float)
  /\ Binary64.weighted_total64 Binary64.weights64 (six_drivers 50 50 50 50 50 50)
     = Ok 50
  /\ Binary64.weighted_total64 Binary64.weights64
       (six_drivers 1000 50 50 50 50 50) = Ok 240
  /\ Binary64.weighted_total64 Binary64.weights64
       (six_drivers 70 53 46 56 51 65) = Ok 57
  /\ Binary64.weighted_total64 Binary64.weights64
       (six_drivers 100 100 100 100 100 100) = Ok 100.
Proof. vm_compute. repeat split. Qed.

(** With [mean_reversion = 1] and no noise one step lands on the base from
    the values a run persists; a previous value as large as [1e300], which
    only a damaged state file can hold, absorbs the base in the float
    subtraction and lands on 0. *)
Lemma binary64_simulate_step :
  Binary64.simulate_step64 90 50 1 0 = Ok 50
  /\ Binary64.simulate_step64 0 50 1 0 = Ok 50
  /\ Binary64.simulate_step64 100 50 1 0 = Ok 50
  /\ Binary64.simulate_step64 150 150 1 0 = Ok 100
  /\ Binary64.simulate_step64 50.5 50.5 1 0 = Ok 50
  /\ Binary64.simulate_step64 1e300 50 1 0 = Ok 0.
Proof. vm_compute. repeat split. Qed.

(** * Further properties of the code *)

(** ** Rounding *)

Lemma round_monotone (x y : Q) : (x <= y)%Q -> Py.round x <= Py.round y.
Proof.
  intros L.
  destruct (Z_lt_le_dec (Py.round y) (Py.round x)) as [G|]; [|assumption].
  pose proof (round_nearest x) as Nx. pose proof (round_nearest y) as Ny.
  unfold nearest_integer in *.
  apply Qabs_Qle_condition in Nx. apply Qabs_Qle_condition in Ny.
  assert (S : (inject_Z (Py.round y) + 1 <= inject_Z (Py.round x))%Q).
  { rewrite <- inject_Z_succ. rewrite <- Zle_Qle. lia. }
  assert (E : (x == y)%Q) by lra.
  rewrite (round_comp x y E) in G. lia.
Qed.

Lemma clampQ_monotone (lo hi x y : Q) :
  (lo <= hi)%Q -> (x <= y)%Q -> (clampQ lo hi x <= clampQ lo hi y)%Q.
Proof.
  intros L M. unfold clampQ.
  destruct (Qlt_le_dec x lo); destruct (Qlt_le_dec y lo);
    destruct (Qlt_le_dec hi x); destruct (Qlt_le_dec hi y); lra.
Qed.

Lemma clampZ_monotone (lo hi x y : Z) :
  x <= y -> clampZ lo hi x <= clampZ lo hi y.
Proof. unfold clampZ. lia. Qed.

Lemma clampZ_inside (lo hi x : Z) : lo <= x <= hi -> clampZ lo hi x = x.
Proof. unfold clampZ. lia. Qed.

(** ** Price action: range, saturation, monotonicity *)

Lemma price_action_sentiment_round (change : Q) :
  price_action_sentiment change =
  Py.round (50 + clampQ (-10) 10 change * 3)
  /\ 20 <= Py.round (50 + clampQ (-10) 10 change * 3) <= 80.
Proof.
  assert (C : (-10 <= clampQ (-10) 10 change <= 10)%Q)
    by (apply clampQ_range; lra).
  assert (R : 20 <= Py.round (50 + clampQ (-10) 10 change * 3) <= 80).
  { apply round_between.
    - change (inject_Z 20) with 20%Q. lra.
    - change (inject_Z 80) with 80%Q. lra. }
  split; [|exact R].
  rewrite price_action_sentiment_clamp. apply clampZ_inside. lia.
Qed.

(** The price-action score always lies in [20, 80]; a change of +10% or
    more gives 80 and a change of -10% or less gives 20. *)
Theorem price_action_sentiment_saturates (change : Q) :
  20 <= price_action_sentiment change <= 80
  /\ ((10 <= change)%Q -> price_action_sentiment change = 80)
  /\ ((change <= -10)%Q -> price_action_sentiment change = 20).
Proof.
  destruct (price_action_sentiment_round change) as [E R].
  split; [rewrite E; exact R|].
  split; intros H; rewrite E.
  - rewrite (round_comp _ (inject_Z 80)); [apply round_inject_Z|].
    unfold clampQ.
    destruct (Qlt_le_dec change (-10)); [lra|].
    destruct (Qlt_le_dec 10 change); [reflexivity|].
    assert (X : (change == 10)%Q) by lra. rewrite X. reflexivity.
  - rewrite (round_comp _ (inject_Z 20)); [apply round_inject_Z|].
    unfold clampQ.
    destruct (Qlt_le_dec change (-10)); [reflexivity|].
    destruct (Qlt_le_dec 10 change); [lra|].
    assert (X : (change == -10)%Q) by lra. rewrite X. reflexivity.
Qed.

Lemma price_action_sentiment_saturates_witness :
  price_action_sentiment 12.5 = 80 /\ price_action_sentiment (-31) = 20.
Proof.
  split.
  - apply (proj1 (proj2 (price_action_sentiment_saturates 12.5))).
    discriminate.
  - apply (proj2 (proj2 (price_action_sentiment_saturates (-31)))).
    discriminate.
Defined.

(** A larger price change never gives a smaller score. *)
Theorem price_action_sentiment_monotone (c1 c2 : Q) :
  (c1 <= c2)%Q -> price_action_sentiment c1 <= price_action_sentiment c2.
Proof.
  intros L.
  rewrite (proj1 (price_action_sentiment_round c1)).
  rewrite (proj1 (price_action_sentiment_round c2)).
  apply round_monotone.
  pose proof (clampQ_monotone (-10) 10 c1 c2) as M. lra.
Qed.

Lemma price_action_sentiment_monotone_witness :
  price_action_sentiment (-3.2) <= price_action_sentiment 1.5.
Proof. apply price_action_sentiment_monotone. discriminate. Defined.

(** ** Liquidity: range and monotonicity *)

Lemma liquidity_score_round (vol_now avg_vol : Q) :
  liquidity_score vol_now avg_vol =
  Py.round (50 + (clampQ 0.25 2.5 (vol_now / avg_vol) - 1) * 30)
  /\ 28 <= liquidity_score vol_now avg_vol <= 95.
Proof.
  assert (C : (0.25 <= clampQ 0.25 2.5 (vol_now / avg_vol) <= 2.5)%Q)
    by (apply clampQ_range; lra).
  set (x := (50 + (clampQ 0.25 2.5 (vol_now / avg_vol) - 1) * 30)%Q) in *.
  assert (R : 28 <= Py.round x <= 95).
  { split.
    - change 28 with (Py.round 27.5). apply round_monotone. unfold x. lra.
    - apply (round_between 27 95).
      + change (inject_Z 27) with 27%Q. unfold x. lra.
      + change (inject_Z 95) with 95%Q. unfold x. lra. }
  rewrite (liquidity_score_clamp vol_now avg_vol avg_vol (Qeq_refl _)).
  fold x. rewrite clampZ_inside by lia. split; [reflexivity | exact R].
Qed.

(** Whatever the two requests give, failures and an empty or non-positive
    history included, the liquidity score lies in [28, 95]. *)
Theorem get_liquidity_sentiment_within_28_95 (vol_now : result Q)
    (vols : result (list Q)) :
  28 <= get_liquidity_sentiment vol_now vols <= 95.
Proof.
  destruct vol_now as [vol_now|e]; [|cbn; lia].
  destruct vols as [vols|e]; [|cbn; lia].
  rewrite get_liquidity_sentiment_cases.
  destruct vols as [|v vols]; [lia|].
  destruct (Py.leQ _ 0); [lia|apply liquidity_score_round].
Qed.

(** For a given history a larger current volume never gives a smaller
    score. *)
Theorem get_liquidity_sentiment_monotone (v1 v2 : Q) (vols : list Q) :
  (v1 <= v2)%Q ->
  get_liquidity_sentiment (Ok v1) (Ok vols)
  <= get_liquidity_sentiment (Ok v2) (Ok vols).
Proof.
  intros L. rewrite !get_liquidity_sentiment_cases.
  destruct vols as [|v vols]; [lia|].
  set (avg_vol := (Py.sum (v :: vols) / _)%Q).
  destruct (Py.leQ avg_vol 0) eqn:P; [lia|].
  assert (A : (0 < avg_vol)%Q).
  { destruct (Qlt_le_dec 0 avg_vol) as [|N]; [assumption|].
    apply leQ_true in N. congruence. }
  rewrite (proj1 (liquidity_score_round v1 avg_vol)).
  rewrite (proj1 (liquidity_score_round v2 avg_vol)).
  apply round_monotone.
  assert (D : (v1 / avg_vol <= v2 / avg_vol)%Q).
  { unfold Qdiv. apply Qmult_le_compat_r; [exact L|].
    apply Qlt_le_weak, Qinv_lt_0_compat, A. }
  pose proof (clampQ_monotone 0.25 2.5 _ _ ltac:(lra) D). lra.
Qed.

Lemma get_liquidity_sentiment_monotone_witness :
  get_liquidity_sentiment (Ok 80%Q) (Ok [100%Q; 120%Q])
  <= get_liquidity_sentiment (Ok 130%Q) (Ok [100%Q; 120%Q]).
Proof. apply get_liquidity_sentiment_monotone. discriminate. Defined.

(** ** The simulated drivers: bounds of one step, monotonicity *)

Lemma simulate_driver_inside (name : string) (prev_state : json)
    (base volatility mean_reversion noise : Q) (lo hi : Z) :
  0 <= lo -> hi <= 100 ->
  (inject_Z lo <=
   _get_prev_driver_value prev_state name base + noise
   + mean_reversion * (base - _get_prev_driver_value prev_state name base)
   <= inject_Z hi)%Q ->
  lo <= simulate_driver name prev_state base volatility mean_reversion noise
     <= hi.
Proof.
  intros L H [B1 B2]. rewrite simulate_driver_clamp.
  pose proof (round_between lo hi _ B1 B2) as R.
  rewrite clampZ_inside by lia. exact R.
Qed.

Lemma previous_value_bounds (prev_state : json) (name : string) (base : Q) :
  (forall q, state_value prev_state name = Some q -> (0 <= q <= 100)%Q) ->
  (0 <= base <= 100)%Q ->
  (0 <= _get_prev_driver_value prev_state name base <= 100)%Q.
Proof.
  intros S B. rewrite _get_prev_driver_value_state.
  destruct (state_value prev_state name) as [q|]; [apply S; reflexivity|].
  exact B.
Qed.

Lemma simulated_news_bounds (prev_state : json) (noise : Q) :
  (forall q, state_value prev_state "news" = Some q -> (0 <= q <= 100)%Q) ->
  (-6 <= noise <= 6)%Q ->
  14 <= get_news_sentiment prev_state noise <= 86.
Proof.
  intros S N.
  pose proof (previous_value_bounds prev_state "news" 50 S ltac:(lra)) as P.
  unfold get_news_sentiment.
  apply simulate_driver_inside; try lia.
  change (inject_Z 14) with 14%Q. change (inject_Z 86) with 86%Q. lra.
Qed.

Lemma simulated_social_bounds (prev_state : json) (noise : Q) :
  (forall q, state_value prev_state "social" = Some q -> (0 <= q <= 100)%Q) ->
  (-8 <= noise <= 8)%Q ->
  14 <= get_social_sentiment prev_state noise <= 86.
Proof.
  intros S N.
  pose proof (previous_value_bounds prev_state "social" 50 S ltac:(lra)) as P.
  unfold get_social_sentiment.
  apply simulate_driver_inside; try lia.
  change (inject_Z 14) with 14%Q. change (inject_Z 86) with 86%Q. lra.
Qed.

Lemma simulated_onchain_bounds (prev_state : json) (noise : Q) :
  (forall q, state_value prev_state "on_chain" = Some q ->
             (0 <= q <= 100)%Q) ->
  (-5 <= noise <= 5)%Q ->
  12 <= get_onchain_sentiment prev_state noise <= 88.
Proof.
  intros S N.
  pose proof (previous_value_bounds prev_state "on_chain" 50 S ltac:(lra))
    as P.
  unfold get_onchain_sentiment.
  apply simulate_driver_inside; try lia.
  change (inject_Z 12) with 12%Q. change (inject_Z 88) with 88%Q. lra.
Qed.

(** From a previous value within [0, 100], or from no previous value, and
    with a noise draw within the volatility, the news and social scores
    land in [14, 86] and the on-chain score in [12, 88]. *)
Theorem simulated_drivers_one_step_bounds (prev_state : json) (noise : Q) :
  ((forall q, state_value prev_state "news" = Some q -> (0 <= q <= 100)%Q) ->
   (-6 <= noise <= 6)%Q ->
   14 <= get_news_sentiment prev_state noise <= 86)
  /\ ((forall q, state_value prev_state "social" = Some q ->
                 (0 <= q <= 100)%Q) ->
      (-8 <= noise <= 8)%Q ->
      14 <= get_social_sentiment prev_state noise <= 86)
  /\ ((forall q, state_value prev_state "on_chain" = Some q ->
                 (0 <= q <= 100)%Q) ->
      (-5 <= noise <= 5)%Q ->
      12 <= get_onchain_sentiment prev_state noise <= 88).
Proof.
  split; [|split]; intros S N.
  - apply simulated_news_bounds; assumption.
  - apply simulated_social_bounds; assumption.
  - apply simulated_onchain_bounds; assumption.
Qed.

Lemma simulated_drivers_one_step_bounds_witness :
  (14 <= get_news_sentiment extreme_state (-6) <= 86
   /\ get_news_sentiment extreme_state (-6) = 14)
  /\ (14 <= get_social_sentiment extreme_state 8 <= 86
      /\ get_social_sentiment extreme_state 8 = 86)
  /\ (12 <= get_onchain_sentiment extreme_state (-5) <= 88
      /\ get_onchain_sentiment extreme_state (-5) = 12).
Proof.
  split; [|split]; (split; [|reflexivity]).
  - apply (proj1 (simulated_drivers_one_step_bounds extreme_state (-6))).
    + intros q [= <-]. split; discriminate.
    + split; discriminate.
  - apply (proj1 (proj2 (simulated_drivers_one_step_bounds extreme_state 8))).
    + intros q [= <-]. split; discriminate.
    + split; discriminate.
  - apply (proj2 (proj2
             (simulated_drivers_one_step_bounds extreme_state (-5)))).
    + intros q [= <-]. split; discriminate.
    + split; discriminate.
Defined.

(** For a given previous state a larger noise draw never gives a smaller
    value. *)
Theorem simulate_driver_monotone (name : string) (prev_state : json)
    (base volatility mean_reversion n1 n2 : Q) :
  (n1 <= n2)%Q ->
  simulate_driver name prev_state base volatility mean_reversion n1
  <= simulate_driver name prev_state base volatility mean_reversion n2.
Proof.
  intros N. rewrite !simulate_driver_clamp.
  apply clampZ_monotone, round_monotone.
  set (p := _get_prev_driver_value prev_state name base).
  set (r := (mean_reversion * (base - p))%Q). clearbody r.
  lra.
Qed.

Lemma simulate_driver_monotone_witness :
  simulate_driver "news" (JDict [("drivers", JDict [("news", JInt 30)])])
                  50 6 0.4 (-2)
  <= simulate_driver "news" (JDict [("drivers", JDict [("news", JInt 30)])])
                     50 6 0.4 3.
Proof. apply simulate_driver_monotone; discriminate. Defined.

(** ** The state file: what is saved is what the next run reads *)

Lemma dict_get_drivers_json (driver_values : dict Z) (name : string) :
  dict_get (drivers_json driver_values) name =
  option_map JInt (dict_get driver_values name).
Proof.
  induction driver_values as [|[k v] dv IH]; simpl; [reflexivity|].
  destruct (String.eqb k name); [reflexivity | exact IH].
Qed.

Lemma prev_drivers_of_saved (driver_values : dict Z) (utcnow : string) :
  prev_drivers_of (load_previous_state (save_state driver_values utcnow)) =
  JDict (drivers_json driver_values).
Proof. reflexivity. Qed.


(** Against a saved state the delta of every current driver is its value
    minus the saved one, and 0 for a driver that was not saved. *)
Theorem deltas_against_saved_state (current saved : dict Z)
    (utcnow : string) :
  NoDup (keys current) ->
  compute_deltas current (load_previous_state (save_state saved utcnow)) =
  Ok (map (fun kv =>
             (fst kv,
              match dict_get saved (fst kv) with
              | Some p => snd kv - p
              | None => 0
              end))
          current).
Proof.
  intros ND.
  rewrite (compute_deltas_dict current _ (drivers_json saved) ND
             (prev_drivers_of_saved saved utcnow)).
  f_equal. apply map_ext. intros [k v]. simpl. f_equal.
  unfold get_or_none. rewrite dict_get_drivers_json.
  destruct (dict_get saved k) as [p|]; simpl;
    [apply delta_of_int | reflexivity].
Qed.

Lemma deltas_against_saved_state_witness :
  compute_deltas [("fear_greed", 55); ("news", 48); ("liquidity", 50)]
    (load_previous_state
       (save_state [("fear_greed", 40); ("news", 61)] "2024-01-01T00:00:00"))
  = Ok [("fear_greed", 15); ("news", -13); ("liquidity", 0)].
Proof.
  apply (deltas_against_saved_state
           [("fear_greed", 55); ("news", 48); ("liquidity", 50)]
           [("fear_greed", 40); ("news", 61)] "2024-01-01T00:00:00").
  repeat constructor; simpl; intuition discriminate.
Defined.

(** ** When a run raises *)




(** ** Two runs in a row *)

Lemma payload_driver_record (env : Env) (d : dict json) (name : string) :
  In name driver_names ->
  exists label,
    jpath (current_payload env d) ["drivers"; name] =
    Some (current_record env d name label).
Proof.
  intros [<-|[<-|[<-|[<-|[<-|[<-|[]]]]]]]; eexists; reflexivity.
Qed.

Lemma current_drivers_defined (env : Env) (name : string) :
  In name driver_names ->
  exists v, dict_get (current_drivers env) name = Some v.
Proof.
  intros [<-|[<-|[<-|[<-|[<-|[<-|[]]]]]]]; eexists; reflexivity.
Qed.

Lemma payload_driver_fields (env : Env) (d : dict json) (name : string)
    (v : Z) :
  In name driver_names ->
  dict_get (current_drivers env) name = Some v ->
  jpath (current_payload env d) ["drivers"; name; "value"] = Some (JInt v)
  /\ jpath (current_payload env d) ["drivers"; name; "delta"] =
     Some (JInt (delta_of v (get_or_none d name))).
Proof.
  intros I G.
  destruct (payload_driver_record env d name I) as (label & R).
  unfold current_record in R. rewrite G in R.
  change (jpath (current_payload env d) ["drivers"; name])
    with (match jpath (current_payload env d) ["drivers"] with
          | Some (JDict ds) =>
              match dict_get ds name with
              | Some r => Some r
              | None => None
              end
          | _ => None
          end) in R.
  cbn [jpath] in *.
  destruct (current_payload env d) as [| | | | | |pd]; try discriminate.
  destruct (dict_get pd "drivers") as [[| | | | | |ds]|]; try discriminate.
  destruct (dict_get ds name) as [r|]; [|discriminate].
  injection R as ->. split; reflexivity.
Qed.



(** ** What [main] leaves on disk *)

Lemma history_points_set (h : dict json) (points : list json) :
  history_points (JDict (dict_set h "points" (JList points))) = points.
Proof.
  unfold history_points, jpath. rewrite dict_get_set_same. reflexivity.
Qed.

(** After a successful [main] the three files tell the same story: the
    newest point of the history file carries the total of the output file,
    and for each of the six drivers the output file, the state file and
    that newest point hold the same value. *)
Theorem main_outputs_agree (env : Env) (disk : Disk) :
  main env = Ok disk ->
  exists payload state history older entry total,
    disk_output disk = Json payload
    /\ disk_state disk = Json state
    /\ disk_history disk = Json history
    /\ history_points history = older ++ [entry]
    /\ jpath payload ["total"; "value"] = Some (JInt total)
    /\ jpath entry ["total"] = Some (JInt total)
    /\ forall name, In name driver_names ->
       exists v,
         jpath payload ["drivers"; name; "value"] = Some (JInt v)
         /\ jpath state ["drivers"; name] = Some (JInt v)
         /\ jpath entry ["drivers"; name] = Some (JInt v).
Proof.
  unfold main. intros M.
  destruct (build_sentiment_payload env) as [[payload files]|e] eqn:B;
    [|discriminate].
  simpl in M. injection M as <-.
  apply build_sentiment_payload_inv in B.
  destruct B as (d & h' & _ & U & -> & ->).
  destruct (update_history_ok (history_file env) (current_total env)
              (current_drivers env) (utcnow_history env)) as (h & _ & U').
  rewrite U' in U. injection U as <-.
  set (entry := history_entry (utcnow_history env) (current_total env)
                              (current_drivers env)) in *.
  destruct (append_bounded_split
              (history_points (load_history (history_file env))) entry)
    as (dropped & kept & _ & A & _).
  do 3 eexists. exists kept, entry, (current_total env).
  cbn [disk_output disk_state disk_history new_state_file new_history_file].
  split; [reflexivity|]. split; [reflexivity|]. split; [reflexivity|].
  split; [rewrite history_points_set; exact A|].
  split; [reflexivity|]. split; [reflexivity|].
  intros name I.
  destruct (current_drivers_defined env name I) as (v & G).
  exists v.
  split; [apply (payload_driver_fields env d name v I G)|].
  fold (drivers_json (current_drivers env)).
  unfold entry, history_entry. fold (drivers_json (current_drivers env)).
  cbn [jpath dict_get String.eqb Ascii.eqb Bool.eqb].
  rewrite dict_get_drivers_json, G. split; reflexivity.
Qed.

Lemma main_outputs_agree_witness :
  exists disk payload total,
    main sample_env = Ok disk
    /\ disk_output disk = Json payload
    /\ jpath payload ["total"; "value"] = Some (JInt total).
Proof.
  assert (M : exists disk, main sample_env = Ok disk)
    by (eexists; vm_compute; reflexivity).
  destruct M as (disk & M).
  destruct (main_outputs_agree sample_env disk M)
    as (payload & state & history & older & entry & total & O & _ & _ & _
        & T & _).
  exists disk, payload, total. auto.
Defined.

(** ** The history file over several updates *)

Lemma dict_get_set_other {V : Type} (d : dict V) (k k' : string) (v : V) :
  k' <> k -> dict_get (dict_set d k v) k' = dict_get d k'.
Proof.
  intros NE. induction d as [|[k0 v0] d IH]; simpl.
  - destruct (String.eqb_spec k k'); [congruence | reflexivity].
  - destruct (String.eqb_spec k0 k) as [->|N0]; simpl.
    + destruct (String.eqb_spec k k'); [congruence | reflexivity].
    + destruct (String.eqb k0 k'); [reflexivity | exact IH].
Qed.

(** [update_history] rewrites the [points] entry only: every other entry of
    the loaded history document is stored back unchanged. *)
Theorem update_history_keeps_other_entries (history_file : file)
    (total_value : Z) (driver_values : dict Z) (utcnow : string) :
  exists h h',
    load_history history_file = JDict h
    /\ update_history history_file total_value driver_values utcnow =
       Ok (Json (JDict h'))
    /\ forall key, key <> "points" -> dict_get h' key = dict_get h key.
Proof.
  destruct (update_history_ok history_file total_value driver_values utcnow)
    as (h & L & U).
  do 2 eexists. split; [exact L|]. split; [exact U|].
  intros key NE. apply dict_get_set_other, NE.
Qed.

Lemma append_bounded_slice (points : list json) (entry : json) :
  append_bounded points entry =
  slice_last MAX_HISTORY_POINTS (points ++ [entry]).
Proof.
  unfold append_bounded, slice_last.
  destruct (MAX_HISTORY_POINTS <? List.length (points ++ [entry]))%nat eqn:C;
    [reflexivity|].
  apply Nat.ltb_ge in C.
  replace (List.length (points ++ [entry]) - MAX_HISTORY_POINTS)%nat
    with 0%nat by lia.
  reflexivity.
Qed.

Lemma slice_last_app (n : nat) (l1 l2 : list json) :
  (List.length l2 <= n)%nat ->
  slice_last n (slice_last n l1 ++ l2) = slice_last n (l1 ++ l2).
Proof.
  intros L. unfold slice_last.
  rewrite !length_app, length_skipn.
  destruct (Nat.le_gt_cases (List.length l1) n) as [S|G].
  - replace (List.length l1 - n)%nat with 0%nat by lia. simpl skipn.
    f_equal. lia.
  - rewrite !skipn_app, length_skipn, skipn_skipn.
    replace (List.length l1 - (List.length l1 - n) + List.length l2 - n
             + (List.length l1 - n))%nat
      with (List.length l1 + List.length l2 - n)%nat by lia.
    f_equal. f_equal. lia.
Qed.

Lemma load_written_history (h : dict json) (points : list json) :
  load_history (Json (JDict (dict_set h "points" (JList points)))) =
  JDict (dict_set h "points" (JList points)).
Proof.
  destruct (load_history_json (JDict (dict_set h "points" (JList points))))
    as [[_ E] | [N _]]; [exact E|].
  exfalso. apply N. exists (dict_set h "points" (JList points)), points.
  split; [reflexivity | apply dict_get_set_same].
Qed.

Lemma update_history_points (history_file : file) (total_value : Z)
    (driver_values : dict Z) (utcnow : string) :
  exists history_file',
    update_history history_file total_value driver_values utcnow =
      Ok history_file'
    /\ history_points (load_history history_file') =
       slice_last MAX_HISTORY_POINTS
         (history_points (load_history history_file)
          ++ [history_entry utcnow total_value driver_values]).
Proof.
  destruct (update_history_ok history_file total_value driver_values utcnow)
    as (h & _ & U).
  eexists. split; [exact U|].
  rewrite load_written_history, history_points_set.
  apply append_bounded_slice.
Qed.

Lemma update_history_many_invariant (calls : list (Z * dict Z * string)) :
  forall (history_file : file) (earlier : list json)
         (call : Z * dict Z * string),
    (forall e, slice_last MAX_HISTORY_POINTS
                 (history_points (load_history history_file) ++ [e]) =
               slice_last MAX_HISTORY_POINTS (earlier ++ [e])) ->
    exists history_file',
      update_history_many history_file (call :: calls) = Ok history_file'
      /\ history_points (load_history history_file') =
         slice_last MAX_HISTORY_POINTS
           (earlier ++ map entry_of (call :: calls)).
Proof.
  induction calls as [|next calls IH];
    intros history_file earlier [[total_value driver_values] utcnow] I.
  - destruct (update_history_points history_file total_value driver_values
                                    utcnow) as (hf' & U & P).
    exists hf'. simpl. rewrite U. simpl. split; [reflexivity|].
    rewrite P. apply I.
  - destruct (update_history_points history_file total_value driver_values
                                    utcnow) as (hf' & U & P).
    destruct (IH hf'
                (earlier ++ [history_entry utcnow total_value driver_values])
                next) as (hf'' & M & P'').
    { intros e. rewrite P, I. apply slice_last_app.
      unfold MAX_HISTORY_POINTS. simpl. lia. }
    exists hf''. split.
    + change (update_history_many history_file
                ((total_value, driver_values, utcnow) :: next :: calls))
        with (bind (update_history history_file total_value driver_values
                                   utcnow)
                   (fun hf => update_history_many hf (next :: calls))).
      rewrite U. exact M.
    + rewrite P'', <- app_assoc. reflexivity.
Qed.

(** After one or more calls of [update_history] the file holds the last 200
    of the points loaded at the start followed by one entry per call, in
    the order of the calls: [min 200 (loaded + calls)] points in all. *)
Theorem update_history_many_points (history_file : file)
    (call : Z * dict Z * string) (calls : list (Z * dict Z * string)) :
  exists history_file',
    update_history_many history_file (call :: calls) = Ok history_file'
    /\ history_points (load_history history_file') =
       slice_last 200
         (history_points (load_history history_file)
          ++ map entry_of (call :: calls))
    /\ List.length (history_points (load_history history_file')) =
       Nat.min 200
         (List.length (history_points (load_history history_file))
          + S (List.length calls)).
Proof.
  destruct (update_history_many_invariant calls history_file
              (history_points (load_history history_file)) call)
    as (hf' & M & P); [reflexivity|].
  exists hf'. split; [exact M|]. split; [exact P|].
  rewrite P. unfold MAX_HISTORY_POINTS, slice_last.
  rewrite length_skipn, length_app, length_map. simpl List.length. lia.
Qed.

(** ** The total: between the extremes, monotone, in range *)





Lemma jpath_step (obj x : json) (k : string) (rest : list string) :
  jpath obj [k] = Some x -> jpath obj (k :: rest) = jpath x rest.
Proof.
  simpl. destruct obj as [| | | | | |o]; try discriminate.
  destruct (dict_get o k); [|discriminate].
  intros [= ->]. reflexivity.
Qed.

Lemma payload_driver_value_inv (env : Env) (d : dict json) (name : string)
    (v : Z) :
  jpath (current_payload env d) ["drivers"; name; "value"] = Some (JInt v) ->
  dict_get (current_drivers env) name = Some v.
Proof.
  erewrite jpath_step by reflexivity.
  unfold current_record, current_drivers, six_drivers, driver_record.
  cbn [jpath dict_get].
  destruct (String.eqb "fear_greed" name); [intros [= <-]; reflexivity|].
  destruct (String.eqb "news" name); [intros [= <-]; reflexivity|].
  destruct (String.eqb "social" name); [intros [= <-]; reflexivity|].
  destruct (String.eqb "price_action" name); [intros [= <-]; reflexivity|].
  destruct (String.eqb "on_chain" name); [intros [= <-]; reflexivity|].
  destruct (String.eqb "liquidity" name); [intros [= <-]; reflexivity|].
  discriminate.
Qed.

(** When the index source fails or answers within [0, 100], every driver
    value and the total of the returned payload lie in [0, 100]. *)
Theorem payload_in_range (env : Env) (payload : json) (files : Files) :
  build_sentiment_payload env = Ok (payload, files) ->
  match fng_response env with
  | Ok index => 0 <= index <= 100
  | Raise _ => True
  end ->
  (exists total,
     jpath payload ["total"; "value"] = Some (JInt total)
     /\ 0 <= total <= 100)
  /\ forall name v,
       jpath payload ["drivers"; name; "value"] = Some (JInt v) ->
       0 <= v <= 100.
Proof.
  intros B I.
  assert (F : 0 <= get_fear_greed (fng_response env) <= 100).
  { unfold get_fear_greed. destruct (fng_response env); simpl; [exact I|lia]. }
  apply build_sentiment_payload_inv in B.
  destruct B as (d & h' & _ & _ & -> & _).
  split.
  - exists (current_total env). split; [reflexivity|].
    apply current_total_range, F.
  - intros name v P. apply payload_driver_value_inv in P.
    apply (drivers_in_range env name v P). right. exact F.
Qed.

Lemma payload_in_range_witness :
  exists payload files total,
    build_sentiment_payload sample_env = Ok (payload, files)
    /\ jpath payload ["total"; "value"] = Some (JInt total)
    /\ 0 <= total <= 100.
Proof.
  assert (B : exists p f, build_sentiment_payload sample_env = Ok (p, f))
    by (do 2 eexists; vm_compute; reflexivity).
  destruct B as (p & f & B).
  destruct (payload_in_range sample_env p f B) as [(total & T & R) _].
  { simpl. lia. }
  exists p, f, total. auto.
Defined.

(** ** Degraded runs *)

Lemma simulate_driver_no_state (name : string)
    (base volatility mean_reversion noise : Q) (lo hi : Z) :
  0 <= lo -> hi <= 100 ->
  (inject_Z lo <= base + noise <= inject_Z hi)%Q ->
  lo <= simulate_driver name (JDict []) base volatility mean_reversion noise
     <= hi.
Proof.
  intros L H B. apply simulate_driver_inside; try assumption.
  change (_get_prev_driver_value (JDict []) name base) with base. lra.
Qed.

(** On a first run with every source failing, the index, price and
    liquidity drivers are 50, the reported price change is 0, and with the
    three noise draws within their volatilities the total stays within
    [47, 53]. *)
Theorem all_sources_down_first_run (env : Env) (payload : json)
    (files : Files) (e1 e2 e3 e4 : exn) :
  state_file env = NoFile ->
  fng_response env = Raise e1 ->
  price_change_response env = Raise e2 ->
  volume_now_response env = Raise e3 \/ volume_history_response env = Raise e4
  ->
  (-6 <= noise_news env <= 6)%Q ->
  (-8 <= noise_social env <= 8)%Q ->
  (-5 <= noise_on_chain env <= 5)%Q ->
  build_sentiment_payload env = Ok (payload, files) ->
  jpath payload ["fear_greed"] = Some (JInt 50)
  /\ jpath payload ["price_sentiment"] = Some (JInt 50)
  /\ jpath payload ["price_change_24h"] = Some (JFloat 0)
  /\ jpath payload ["liquidity_sentiment"] = Some (JInt 50)
  /\ exists total,
       jpath payload ["total"; "value"] = Some (JInt total)
       /\ 47 <= total <= 53.
Proof.
  intros S F P V N1 N2 N3 B.
  apply build_sentiment_payload_inv in B.
  destruct B as (d & h' & _ & _ & -> & _).
  assert (L : get_liquidity_sentiment (volume_now_response env)
                (volume_history_response env) = 50).
  { destruct V as [-> | ->]; [reflexivity|].
    destruct (volume_now_response env); reflexivity. }
  unfold current_payload, current_total, current_drivers.
  rewrite S, F, P, L.
  change (load_previous_state NoFile) with (JDict []).
  cbn [jpath dict_get six_drivers String.eqb Ascii.eqb Bool.eqb
       get_fear_greed get_btc_price_change try_except].
  change (price_action_sentiment 0) with 50.
  repeat (split; [reflexivity|]).
  eexists. split; [reflexivity|].
  pose proof (simulate_driver_no_state "news" 50 6 0.4 (noise_news env) 44 56
                ltac:(lia) ltac:(lia)) as A1.
  pose proof (simulate_driver_no_state "social" 50 8 0.45 (noise_social env)
                42 58 ltac:(lia) ltac:(lia)) as A2.
  pose proof (simulate_driver_no_state "on_chain" 50 5 0.35
                (noise_on_chain env) 45 55 ltac:(lia) ltac:(lia)) as A3.
  fold (get_news_sentiment (JDict []) (noise_news env)) in A1.
  fold (get_social_sentiment (JDict []) (noise_social env)) in A2.
  fold (get_onchain_sentiment (JDict []) (noise_on_chain env)) in A3.
  change (inject_Z 44) with 44%Q in A1. change (inject_Z 56) with 56%Q in A1.
  change (inject_Z 42) with 42%Q in A2. change (inject_Z 58) with 58%Q in A2.
  change (inject_Z 45) with 45%Q in A3. change (inject_Z 55) with 55%Q in A3.
  specialize (A1 ltac:(lra)). specialize (A2 ltac:(lra)).
  specialize (A3 ltac:(lra)).
  revert A1 A2 A3.
  generalize (get_news_sentiment (JDict []) (noise_news env)) as news.
  generalize (get_social_sentiment (JDict []) (noise_social env)) as social.
  generalize (get_onchain_sentiment (JDict []) (noise_on_chain env))
    as on_chain.
  intros on_chain social news A1 A2 A3.
  apply round_between; rewrite sentiment_average_sum;
    rewrite !Zle_Qle in *;
    change (inject_Z 50) with 50%Q; change (inject_Z 47) with 47%Q;
    change (inject_Z 53) with 53%Q;
    change (inject_Z 44) with 44%Q in *; change (inject_Z 56) with 56%Q in *;
    change (inject_Z 42) with 42%Q in *; change (inject_Z 58) with 58%Q in *;
    change (inject_Z 45) with 45%Q in *; change (inject_Z 55) with 55%Q in *;
    lra.
Qed.

Lemma all_sources_down_first_run_witness :
  exists payload files total,
    build_sentiment_payload
      {| state_file := NoFile; history_file := Malformed;
         fng_response := Raise RequestException;
         price_change_response := Raise ValueError;
         volume_now_response := Ok 10%Q;
         volume_history_response := Raise RequestException;
         noise_news := 6%Q; noise_social := 8%Q; noise_on_chain := 5%Q;
         utcnow_payload := "2024-01-02T00:00:00";
         utcnow_state := "2024-01-02T00:00:01";
         utcnow_history := "2024-01-02T00:00:02" |} = Ok (payload, files)
    /\ jpath payload ["total"; "value"] = Some (JInt total)
    /\ 47 <= total <= 53.
Proof.
  match goal with |- context [build_sentiment_payload ?e] => set (env := e) end.
  assert (B : exists p f, build_sentiment_payload env = Ok (p, f))
    by (do 2 eexists; vm_compute; reflexivity).
  destruct B as (p & f & B).
  destruct (all_sources_down_first_run env p f RequestException ValueError
              RequestException RequestException)
    as (_ & _ & _ & _ & total & T & R);
    try reflexivity; try (split; discriminate); [right; reflexivity | exact B|].
  exists p, f, total. auto.
Defined.

(** ** Deltas: one per current driver, or an exception *)



(** ** The reported price change and its score *)

(** In every returned payload the price score is the score of the price
    change reported beside it, which is the change the source gave, or 0
    when the source failed. *)
Theorem payload_price_fields_agree (env : Env) (payload : json)
    (files : Files) :
  build_sentiment_payload env = Ok (payload, files) ->
  exists change,
    jpath payload ["price_change_24h"] = Some (JFloat change)
    /\ jpath payload ["price_sentiment"] =
       Some (JInt (price_action_sentiment change))
    /\ jpath payload ["drivers"; "price_action"; "value"] =
       Some (JInt (price_action_sentiment change))
    /\ change = match price_change_response env with
                | Ok c => c
                | Raise _ => 0%Q
                end.
Proof.
  intros B. apply build_sentiment_payload_inv in B.
  destruct B as (d & h' & _ & _ & -> & _).
  exists (get_btc_price_change (price_change_response env)).
  repeat split.
Qed.

Lemma payload_price_fields_agree_witness :
  exists payload files,
    build_sentiment_payload sample_env = Ok (payload, files)
    /\ jpath payload ["price_change_24h"] = Some (JFloat 2)
    /\ jpath payload ["price_sentiment"] = Some (JInt 56).
Proof.
  assert (B : exists p f, build_sentiment_payload sample_env = Ok (p, f))
    by (do 2 eexists; vm_compute; reflexivity).
  destruct B as (p & f & B).
  destruct (payload_price_fields_agree sample_env p f B)
    as (change & C & S & _ & E).
  simpl in E. subst change.
  exists p, f. auto.
Defined.

(** ** The simulated drivers from the second run on *)



